(** * wranglegist: submitting code snippets to Gist

    A shallow embedding of [houdini/python3.7libs/wranglegist.py] and the
    properties of its validation, heuristics, credential loading and error
    reporting.

    Conventions of the model.
    - A Python [str] is a [string]; the text is ASCII.  Case maps, the
      whitespace class of [str.strip]/[str.split] and the digit class of
      [\d] are Python's, restricted to ASCII.
    - A file opened in text mode is read with universal newlines.
    - A call that may raise returns a [result]; exceptions are values of
      [exn], one constructor per Python class the module raises.
    - [re.match] is a backtracking matcher over the fragment of the regular
      expression syntax that the module uses.
    - Calls into the host application ([hou]) are recorded as a trace of
      [event]s. *)

From Stdlib Require Import String Ascii List Bool Arith Lia.
Import ListNotations.
Open Scope list_scope.
Open Scope string_scope.
Open Scope nat_scope.

(** ** Python strings *)

Module Py.

Definition newline : ascii := "010"%char.
Definition dquote : ascii := "034"%char.

Definition chr (c : ascii) : string := String c EmptyString.

(** [str.isspace] on one ASCII character: tab, line feed, vertical tab,
    form feed, carriage return, the four separators 28..31 and space. *)
Definition isspace (c : ascii) : bool :=
  let n := nat_of_ascii c in
  ((9 <=? n) && (n <=? 13)) || ((28 <=? n) && (n <=? 32)).

(** The class [\d]. *)
Definition isdigit (c : ascii) : bool :=
  let n := nat_of_ascii c in (48 <=? n) && (n <=? 57).

Definition lower_char (c : ascii) : ascii :=
  let n := nat_of_ascii c in
  if (65 <=? n) && (n <=? 90) then ascii_of_nat (n + 32) else c.

Definition upper_char (c : ascii) : ascii :=
  let n := nat_of_ascii c in
  if (97 <=? n) && (n <=? 122) then ascii_of_nat (n - 32) else c.

Fixpoint map_chars (f : ascii -> ascii) (s : string) : string :=
  match s with
  | EmptyString => EmptyString
  | String c s' => String (f c) (map_chars f s')
  end.

(** [s.lower()] and [s.upper()]. *)
Definition lower (s : string) : string := map_chars lower_char s.
Definition upper (s : string) : string := map_chars upper_char s.

(** [s.replace(a, b)] for one-character [a] and [b]. *)
Definition replace_char (a b : ascii) (s : string) : string :=
  map_chars (fun c => if Ascii.eqb c a then b else c) s.

Definition is_empty (s : string) : bool :=
  match s with EmptyString => true | _ => false end.

(** [s.lstrip(chars)] and [s.rstrip(chars)], the set of characters given
    as a predicate. *)
Fixpoint lstrip_by (p : ascii -> bool) (s : string) : string :=
  match s with
  | EmptyString => EmptyString
  | String c s' => if p c then lstrip_by p s' else s
  end.

Fixpoint rstrip_by (p : ascii -> bool) (s : string) : string :=
  match s with
  | EmptyString => EmptyString
  | String c s' =>
      let r := rstrip_by p s' in
      if is_empty r && p c then EmptyString else String c r
  end.

Definition lstrip (s : string) : string := lstrip_by isspace s.
Definition rstrip (s : string) : string := rstrip_by isspace s.

(** [s.startswith(p)]. *)
Definition startswith (p s : string) : bool := String.prefix p s.

(** [s[::-1]]. *)
Fixpoint reversed (s : string) : string :=
  match s with
  | EmptyString => EmptyString
  | String c s' => reversed s' ++ chr c
  end.

(** [s.split()]: the maximal runs of characters that are not whitespace. *)
Fixpoint split_from (word s : string) : list string :=
  match s with
  | EmptyString => if is_empty word then [] else [word]
  | String c s' =>
      if isspace c
      then (if is_empty word then split_from EmptyString s'
            else word :: split_from EmptyString s')
      else split_from (word ++ chr c) s'
  end.

Definition split (s : string) : list string := split_from EmptyString s.

(** [sep.join(l)]. *)
Fixpoint join (sep : string) (l : list string) : string :=
  match l with
  | [] => EmptyString
  | [x] => x
  | x :: l' => x ++ sep ++ join sep l'
  end.

(** [x in l] for a list or tuple of strings. *)
Definition contains (l : list string) (x : string) : bool :=
  existsb (String.eqb x) l.

(** [l.index(x)]; [None] where Python raises [ValueError]. *)
Fixpoint index (l : list string) (x : string) : option nat :=
  match l with
  | [] => None
  | y :: l' => if String.eqb y x then Some 0
               else option_map S (index l' x)
  end.

Definition carriage_return : ascii := "013"%char.

(** The text that reading gives for a file opened with [open(path, "r")]:
    in that mode every line end of the file, a line feed, a carriage return
    with a line feed or a carriage return alone, is read as one line
    feed. *)
Fixpoint universal_newlines (s : string) : string :=
  match s with
  | EmptyString => EmptyString
  | String c s' =>
      if Ascii.eqb c carriage_return
      then match s' with
           | String c' s'' =>
               if Ascii.eqb c' newline
               then String newline (universal_newlines s'')
               else String newline (universal_newlines s')
           | EmptyString => String newline EmptyString
           end
      else String c (universal_newlines s')
  end.

(** [f.readline()] on the text that is left to read of such a file, where
    a line ends with a line feed: the line with its line feed, and what
    follows it. *)
Fixpoint readline (s : string) : string * string :=
  match s with
  | EmptyString => (EmptyString, EmptyString)
  | String c s' =>
      if Ascii.eqb c newline then (chr c, s')
      else let (line, rest) := readline s' in (String c line, rest)
  end.

(** [repr(s)] of a string.  The quote is the single one, unless the
    string holds a single quote and no double one; the quote and the
    backslash get a backslash; tab, line feed and carriage return are
    written [\t], [\n] and [\r], any other control character and DEL
    as [\x] and two hexadecimal digits. *)
Definition hex_digit (n : nat) : ascii :=
  if n <? 10 then ascii_of_nat (48 + n) else ascii_of_nat (87 + n).

Fixpoint has_char (c : ascii) (s : string) : bool :=
  match s with
  | EmptyString => false
  | String a s' => Ascii.eqb a c || has_char c s'
  end.

Definition repr_char (quote c : ascii) : string :=
  let n := nat_of_ascii c in
  if Ascii.eqb c quote || Ascii.eqb c "\"%char then String "\"%char (chr c)
  else if n =? 9 then "\t"
  else if n =? 10 then "\n"
  else if n =? 13 then "\r"
  else if (n <? 32) || (n =? 127)
       then String "\"%char
              (String "x"%char
                 (String (hex_digit (n / 16)) (chr (hex_digit (n mod 16)))))
  else chr c.

Fixpoint repr_body (quote : ascii) (s : string) : string :=
  match s with
  | EmptyString => EmptyString
  | String c s' => repr_char quote c ++ repr_body quote s'
  end.

Definition repr (s : string) : string :=
  let quote :=
    if has_char "'"%char s && negb (has_char dquote s) then dquote
    else "'"%char in
  chr quote ++ repr_body quote s ++ chr quote.

(** The first index at which [t] occurs in [s] ([s.find(t)]), if any. *)
Fixpoint find (t s : string) : option nat :=
  if String.prefix t s then Some 0
  else match s with
       | EmptyString => None
       | String _ s' => option_map S (find t s')
       end.

(** [s[:n]] and [s[n:]]. *)
Fixpoint take (n : nat) (s : string) : string :=
  match n, s with
  | S n', String c s' => String c (take n' s')
  | _, _ => EmptyString
  end.

Fixpoint drop (n : nat) (s : string) : string :=
  match n, s with
  | S n', String _ s' => drop n' s'
  | _, _ => s
  end.

End Py.

(** ** The fragment of [re] that the module uses *)

Module Re.

Inductive regex : Type :=
| Text (t : string)                 (* literal characters *)
| Star (c : ascii -> bool)          (* c*   greedy *)
| Plus (c : ascii -> bool)          (* c+   greedy *)
| StarLazy (c : ascii -> bool)      (* c*?  lazy *)
| Alt (r1 r2 : regex)               (* r1|r2, the left branch first *)
| Seq (r1 r2 : regex)               (* r1r2 *)
| Group (r : regex)                 (* (r), capturing *)
| Ahead (r : regex).                (* (?=r) *)

(** Character classes: [.] (no flag: anything but a line feed), [\d] and
    [[\w\W]]. *)
Definition dot (c : ascii) : bool := negb (Ascii.eqb c Py.newline).
Definition digit (c : ascii) : bool := Py.isdigit c.
Definition anychar (_ : ascii) : bool := true.

(** The text of the groups closed so far, in the order they closed. *)
Definition groups := list string.

(** [skip t s]: what is left of [s] after its prefix [t]. *)
Fixpoint skip (t s : string) : option string :=
  match t, s with
  | EmptyString, _ => Some s
  | String a t', String b s' => if Ascii.eqb a b then skip t' s' else None
  | String _ _, EmptyString => None
  end.

Section Matcher.
Context {A : Type}.

(** Greedy repetition: as many characters as possible, giving one back at
    a time while the rest of the pattern fails. *)
Fixpoint star (c : ascii -> bool) (s : string) (k : string -> option A)
  : option A :=
  match s with
  | String a s' =>
      if c a
      then match star c s' k with
           | Some r => Some r
           | None => k s
           end
      else k s
  | EmptyString => k s
  end.

(** Lazy repetition: as few characters as possible, taking one more at a
    time while the rest of the pattern fails. *)
Fixpoint star_lazy (c : ascii -> bool) (s : string) (k : string -> option A)
  : option A :=
  match k s with
  | Some r => Some r
  | None =>
      match s with
      | String a s' => if c a then star_lazy c s' k else None
      | EmptyString => None
      end
  end.
End Matcher.

(** The text that was read between [s] and its suffix [s']. *)
Definition consumed (s s' : string) : string :=
  Py.take (String.length s - String.length s') s.
Arguments consumed : simpl never.

(** [exec r s g k]: match [r] at the head of [s], then continue with [k] on
    the rest; [None] when every alternative fails. *)
Fixpoint exec (r : regex) (s : string) (g : groups)
    (k : string -> groups -> option groups) : option groups :=
  match r with
  | Text t =>
      match skip t s with
      | Some s' => k s' g
      | None => None
      end
  | Star c => star c s (fun s' => k s' g)
  | Plus c =>
      match s with
      | String a s' => if c a then star c s' (fun s'' => k s'' g) else None
      | EmptyString => None
      end
  | StarLazy c => star_lazy c s (fun s' => k s' g)
  | Alt r1 r2 =>
      match exec r1 s g k with
      | Some m => Some m
      | None => exec r2 s g k
      end
  | Seq r1 r2 => exec r1 s g (fun s' g' => exec r2 s' g' k)
  | Group r1 => exec r1 s g (fun s' g' => k s' (g' ++ [consumed s s'])%list)
  | Ahead r1 =>
      match exec r1 s g (fun _ g' => Some g') with
      | Some g' => k s g'
      | None => None
      end
  end.

(** [re.match(r, s)]: a match at the start of [s], which need not reach its
    end.  [None] is Python's [None]; [Some g] is a match object whose
    [group(i)] is the [i]-th element of [g], counted from one. *)
Definition re_match (r : regex) (s : string) : option groups :=
  exec r s [] (fun _ g => Some g).

Definition group (g : groups) (i : nat) : string :=
  nth (i - 1) g EmptyString.

End Re.


(** ** Exceptions and results *)

Inductive exn : Type :=
| GistError (message : string)      (* class GistError(Exception) *)
| ValueError (message : string)
| TypeError (message : string)
| AttributeError (message : string)
| OtherException (cls message : string).

(** [isinstance(e, GistError)]. *)
Definition is_GistError (e : exn) : bool :=
  match e with GistError _ => true | _ => false end.

Inductive result (A : Type) : Type :=
| Returned (a : A)
| Raised (e : exn).
Arguments Returned {A} a.
Arguments Raised {A} e.

Definition bind {A B : Type} (m : result A) (f : A -> result B) : result B :=
  match m with
  | Returned a => f a
  | Raised e => Raised e
  end.

Notation "x <- m ;; k" := (bind m (fun x => k))
  (at level 61, m at next level, right associativity).

(** ** Module constants *)

Definition GIST_API : string := "https://api.github.com/gists".
Definition GIST_URL : string := "https://gist.github.com".
Definition VALID_EXTENSIONS : list string := [".h"; ".vfl"; ".c"; ".cl"; ".py"].
Definition VISIBILITY_TAGS : list string := ["private"; "public"].

(** ** class Gist *)

Module Gist.
Import Py Re.

(** The attributes of a [Gist] object.  [__init__] assigns each of them
    before anything reads it. *)
Record t : Type := mk {
  _ext : string;
  _visibility : string;
  public : bool;
  _name : string;
  _desc : string;
  _snippet : string
}.

Definition blank : t :=
  mk EmptyString EmptyString false EmptyString EmptyString EmptyString.

Definition with_ext (self : t) (v : string) : t :=
  mk v (_visibility self) (public self) (_name self) (_desc self) (_snippet self).
Definition with_visibility (self : t) (v : string) : t :=
  mk (_ext self) v (public self) (_name self) (_desc self) (_snippet self).
Definition with_public (self : t) (v : bool) : t :=
  mk (_ext self) (_visibility self) v (_name self) (_desc self) (_snippet self).
Definition with_name (self : t) (v : string) : t :=
  mk (_ext self) (_visibility self) (public self) v (_desc self) (_snippet self).
Definition with_desc (self : t) (v : string) : t :=
  mk (_ext self) (_visibility self) (public self) (_name self) v (_snippet self).
Definition with_snippet (self : t) (v : string) : t :=
  mk (_ext self) (_visibility self) (public self) (_name self) (_desc self) v.

(** The message of the error that [ext.setter] raises. *)
Definition ext_message : string :=
  "Extension must be one of the following: " ++ join " " VALID_EXTENSIONS.

(** [@ext.setter] *)
Definition set_ext (self : t) (extension : string) : result t :=
  let extension :=
    if negb (startswith "." extension) then "." ++ extension else extension in
  if negb (contains VALID_EXTENSIONS extension)
  then Raised (GistError ext_message)
  else Returned (with_ext self extension).

(** The patterns of [illegal], each with its source text. *)
Definition illegal : list (string * regex) :=
  [("gistfile\d+", Seq (Text "gistfile") (Plus digit))].

(** The [for term in illegal] loop of [filename.setter]: the error of the
    first term that matches, if one does. *)
Fixpoint first_illegal (terms : list (string * regex)) (name : string)
  : option exn :=
  match terms with
  | [] => None
  | (term, r) :: terms' =>
      match re_match r name with
      | Some _ => Some (GistError ("Gist files cannot contain " ++ term))
      | None => first_illegal terms' name
      end
  end.

(** [@filename.setter] *)
Definition set_filename (self : t) (name : string) : result t :=
  if is_empty name
  then Raised (GistError "Filename cannot be an empty string!")
  else match first_illegal illegal name with
       | Some e => Raised e
       | None => Returned (with_name self (join "_" (split name) ++ _ext self))
       end.

(** [@desc.setter]; [description[0]] raises [IndexError] on the empty
    string, which the setter catches. *)
Definition set_desc (self : t) (description : string) : t :=
  match description with
  | String c rest =>
      with_desc self
        (rstrip_by (Ascii.eqb "."%char) (upper (chr c) ++ rest))
  | EmptyString => with_desc self description
  end.

(** [@snippet.setter] *)
Definition set_snippet (self : t) (code : string) : result t :=
  if is_empty code
  then Raised (GistError "Snippet cannot be empty!")
  else Returned (with_snippet self code).

(** The message of the [ValueError] of [visibility.setter]. *)
Definition visibility_message : string :=
  "Invalid visibility selection. Options are "
  ++ join " " (map (fun x => chr dquote ++ x ++ chr dquote) VISIBILITY_TAGS)
  ++ " without the quotes).".

(** [@visibility.setter]; [tuple.index] raises [ValueError] on a value that
    is not in the tuple. *)
Definition set_visibility (self : t) (viz : string) : result t :=
  if negb (contains VISIBILITY_TAGS (lower viz))
  then Raised (ValueError visibility_message)
  else
    let self := with_visibility self viz in
    match index VISIBILITY_TAGS viz with
    | Some i => Returned (with_public self (negb (i =? 0)))
    | None => Raised (ValueError "tuple.index(x): x not in tuple")
    end.

(** [Gist.__init__] *)
Definition __init__ (filename ext desc snippet visibility : string)
  : result t :=
  self <- set_ext blank ext ;;
  self <- set_visibility self visibility ;;
  self <- set_filename self filename ;;
  let self := set_desc self desc in
  self <- set_snippet self snippet ;;
  Returned (with_public self true).

End Gist.

(** ** class GitHubAuth *)

Module GitHubAuth.
Import Py.

Record t : Type := mk { user : string; token : string }.

(** [_auth()], from what the operating system answers.  The argument is
    the text of the file [~/gist_personal_access_token] as it is stored, or
    [None] when [os.path.isfile] says there is no such file; the file is
    opened with [open(tokenfile, "r")]. *)
Definition _auth (tokenfile : option string) : result (string * string) :=
  match tokenfile with
  | None =>
      Raised (GistError
        ("Unable to locate personal access token at "
         ++ "~/gist_personal_access_token. "
         ++ "Are you sure you created one?"))
  | Some file_ =>
      let (line, rest) := readline (universal_newlines file_) in
      let user := rstrip line in
      let token := rstrip rest in
      if is_empty token
      then Raised (GistError
             ("Token file is empty. "
              ++ "Please make sure you copied and pasted the token "
              ++ "string from GitHub!"))
      else Returned (user, token)
  end.

(** [GitHubAuth.__init__(user=None, token=None)]; an empty string is as
    false as [None]. *)
Definition __init__ (tokenfile : option string) (user token : option string)
  : result t :=
  match user, token with
  | Some (String a u), Some (String b k) =>
      Returned (mk (String a u) (String b k))
  | _, _ =>
      auth <- _auth tokenfile ;;
      Returned (mk (fst auth) (snd auth))
  end.




End GitHubAuth.

(** ** JSON values *)

(** The values that the module hands to [json.dumps]. *)
#[warnings="-register-all"]
Inductive json : Type :=
| JString (s : string)
| JBool (b : bool)
| JObject (members : list (string * json)).

(** ** class GistRequest *)

Module GistRequest.

Record t : Type := mk {
  auth : GitHubAuth.t;
  gist : Gist.t;
  url : string;
  headers : list (string * string)
}.

(** [GistRequest.__init__]; both [isinstance] checks hold by typing. *)
Definition __init__ (auth : GitHubAuth.t) (gist : Gist.t) : t :=
  mk auth gist GIST_API
     [("X-Github-Username", GitHubAuth.user auth);
      ("Content-type", "application/json");
      ("Authorization", "token " ++ GitHubAuth.token auth)].

(** [data()]; the properties [desc], [public], [filename] and [snippet]
    of the gist read its attributes. *)
Definition data (self : t) : json :=
  JObject
    [("description", JString (Gist._desc (gist self)));
     ("public", JBool (Gist.public (gist self)));
     ("files",
      JObject [(Gist._name (gist self),
                JObject [("content", JString (Gist._snippet (gist self)))])])].

End GistRequest.

(** ** The host application *)

(** What [import hou] and [hou.isUIAvailable()] would answer. *)
Record host : Type := mkHost {
  hou_importable : bool;
  ui_available : bool
}.

Inductive severityType : Type := Message | Error.

(** The calls that reach the host, in the order they are made. *)
Inductive event : Type :=
| ImportHou
| IsUIAvailable
| DisplayMessage (text title : string) (severity : severityType).

(** A computation that talks to the host: the calls it made and how it
    ended. *)
Definition io (A : Type) : Type := list event * result A.

Definition io_ret {A : Type} (a : A) : io A := ([], Returned a).
Definition io_raise {A : Type} (e : exn) : io A := ([], Raised e).
Definition io_call (ev : event) : io unit := ([ev], Returned tt).

Definition io_bind {A B : Type} (m : io A) (f : A -> io B) : io B :=
  match m with
  | (tr, Returned a) => let (tr', r) := f a in ((tr ++ tr')%list, r)
  | (tr, Raised e) => (tr, Raised e)
  end.

Notation "x <~ m ;; k" := (io_bind m (fun x => k))
  (at level 61, m at next level, right associativity).

Definition outcome {A : Type} (m : io A) : result A := snd m.

(** ** class GistErrorHandler *)

Module GistErrorHandler.

Inductive context : Type := cli | hou | hou_ui.

Record t : Type := mk { _err : exn; _context : context }.

(** [_get_context()] *)
Definition _get_context (h : host) : io context :=
  _ <~ io_call ImportHou ;;
  if hou_importable h
  then
    ui <~ (_ <~ io_call IsUIAvailable ;; io_ret (ui_available h)) ;;
    if ui then io_ret hou_ui else io_ret hou
  else io_ret cli.

(** [@err.setter] *)
Definition set_err (exception : exn) : result exn :=
  if negb (is_GistError exception)
  then Raised (TypeError "Handler can only handle <GistError>s")
  else Returned exception.

(** [self.err.message]: the attribute that [GistError.__init__] stores. *)
Definition message_of (e : exn) : string :=
  match e with
  | GistError m | ValueError m | TypeError m | AttributeError m => m
  | OtherException _ m => m
  end.

(** [handle()] *)
Definition handle (self : t) : io unit :=
  match _context self with
  | cli | hou => io_raise (_err self)
  | hou_ui =>
      io_call (DisplayMessage (message_of (_err self))
                 "Gist Submission Error" Error)
  end.

(** [GistErrorHandler.__init__] *)
Definition __init__ (h : host) (err : exn) : io t :=
  match set_err err with
  | Raised e => io_raise e
  | Returned err =>
      context <~ _get_context h ;;
      let self := mk err context in
      _ <~ handle self ;;
      io_ret self
  end.

End GistErrorHandler.

(** ** Heuristics *)

Import Py Re.

(** What [guess_filename] reads of a [hou.Node]: [node.name()] and
    [node.type().nameComponents()[2]]. *)
Record node : Type := mkNode { name : string; type_name : string }.

(** [guess_filename(node)].  The type name is spliced into the pattern
    [{0}\d*] as it is; node type names are made of letters, digits and
    underscores, which a pattern reads as literal text. *)
Definition guess_filename (n : node) : string :=
  match re_match (Seq (Text (type_name n)) (Star digit)) (name n) with
  | None => name n
  | Some _ => EmptyString
  end.

(** A comment token of the module as a pattern: a backslash makes the
    character after it literal, as in [/\*]; the tokens hold no other
    metacharacter. *)
Fixpoint unescape (s : string) : string :=
  match s with
  | String "\"%char (String c s') => String c (unescape s')
  | String c s' => String c (unescape s')
  | EmptyString => EmptyString
  end.

Definition literal (token : string) : regex := Text (unescape token).

(** ["|".join(tokens)] as a pattern. *)
Fixpoint alternation (tokens : list string) : regex :=
  match tokens with
  | [] => Text EmptyString
  | [x] => literal x
  | x :: tokens' => Alt (literal x) (alternation tokens')
  end.

Definition triple (c : ascii) : string := String c (String c (String c EmptyString)).

Definition singleline : list string := ["//"; "#"].
(** Python keeps the backslash of ["/\*"]: that token has three characters. *)
Definition multiline : list string := ["/\*"; triple "'"%char; triple dquote].
Definition comment_tokens : list string := (singleline ++ multiline)%list.

(** [auto_populate_desc(snippet)].  [^] holds where [re.match] starts.  A
    failed [re.match] gives [None], whose [.group] raises
    [AttributeError]: caught in the single-line branch only. *)
Definition auto_populate_desc (snippet : string) : result string :=
  match re_match (Seq (Group (alternation comment_tokens)) (Group (Star dot)))
                 snippet with
  | None => Returned EmptyString
  | Some m =>
      let token := group m 1 in
      desc <-
        (if contains singleline token then
           match re_match
                   (Seq (literal token)
                        (Group (Seq (StarLazy dot) (Ahead (Text (chr newline))))))
                   snippet with
           | Some m' => Returned (group m' 1)
           | None => Returned EmptyString
           end
         else if contains multiline token then
           match re_match
                   (Seq (literal token)
                        (Seq (Group (StarLazy anychar))
                             (literal (reversed token))))
                   snippet with
           | Some m' => Returned (replace_char newline " "%char (group m' 1))
           | None =>
               Raised (AttributeError
                         "'NoneType' object has no attribute 'group'")
           end
         else Returned EmptyString) ;;
      Returned (lstrip (rstrip desc))
  end.

(** ** The first [try] statement of [create] *)

(** The body of the [try]: a [Gist] from the four fields of the dialog,
    with the snippet put before the last of them, then
    [GistRequest(GitHubAuth(), gist)]. *)
Definition build_request (tokenfile : option string)
    (filename filetype description visibility snippet : string)
  : result GistRequest.t :=
  gist <- Gist.__init__ filename filetype description snippet visibility ;;
  auth <- GitHubAuth.__init__ tokenfile None None ;;
  Returned (GistRequest.__init__ auth gist).

(** [try: ... except GistError as err: GistErrorHandler(err); return].
    [None] is the early return; any other exception leaves [create]. *)
Definition create_try (h : host) (tokenfile : option string)
    (filename filetype description visibility snippet : string)
  : io (option GistRequest.t) :=
  match build_request tokenfile filename filetype description visibility
                      snippet with
  | Returned request => io_ret (Some request)
  | Raised err =>
      if is_GistError err
      then _ <~ GistErrorHandler.__init__ h err ;; io_ret None
      else io_raise err
  end.

(** ** [guess_filetype] *)

(** What the module reads of a [hou.Parm]: [parm.node()],
    [parm.evalAsString()] and
    [parm.parmTemplate().tags().get("editorlang")]. *)
Record parm : Type := mkParm {
  parm_node : node;
  parm_text : string;
  parm_editorlang : option string
}.

(** [d.get(k)] on a dict with string keys and values, as a list of its
    items in the order they were inserted. *)
Fixpoint lookup (d : list (string * string)) (k : string) : option string :=
  match d with
  | [] => None
  | (k', v) :: d' => if String.eqb k' k then Some v else lookup d' k
  end.

(** [d[k]]: [KeyError(k)] on a key that is missing; the text of that
    exception is [repr(k)]. *)
Definition getitem (d : list (string * string)) (k : string) : result string :=
  match lookup d k with
  | Some v => Returned v
  | None => Raised (OtherException "KeyError" (repr k))
  end.

(** [t in s] on strings. *)
Definition substring (t s : string) : bool :=
  match find t s with Some _ => true | None => false end.

Definition exts : list (string * string) :=
  [("python", ".py"); ("vex", ".h"); ("opencl", ".cl")].

(** The [for searchterm, ext in type_map.items()] loop. *)
Fixpoint first_hit (type_map : list (string * string)) (base : string)
  : string :=
  match type_map with
  | [] => EmptyString
  | (searchterm, ext) :: type_map' =>
      if substring searchterm base then ext else first_hit type_map' base
  end.

(** [guess_filetype(parm)]; [if editorlang] is false on [None] and on the
    empty string. *)
Definition guess_filetype (p : parm) : result string :=
  match parm_editorlang p with
  | Some (String c l) => getitem exts (lower (String c l))
  | _ =>
      vex <- getitem exts "vex" ;;
      python <- getitem exts "python" ;;
      opencl <- getitem exts "opencl" ;;
      let type_map :=
        [("wrangle", vex); ("python", python); ("opencl", opencl)] in
      Returned (first_hit type_map (type_name (parm_node p)))
  end.

(** ** [create] *)

Module Create.

(** What [create] reads of a [requests.Response]: [response.ok], and
    [response.json()] as the members of the object that are strings, or
    the exception that decoding raises. *)
Record response : Type := mkResponse {
  ok : bool;
  json_body : result (list (string * string))
}.

(** What [create] does to the world around it, in order: the calls of the
    error handler, the dialog of options, the request, the dialog of
    success and what is printed. *)
Inductive action : Type :=
| Host (e : event)
| ReadMultiInput (initial_contents : list string)
| Post (url : string) (data : json) (headers : list (string * string))
       (timeout : nat)
| DisplayDetails (text title details_label details : string)
| Print (body : list (string * string)).

Definition act (A : Type) : Type := list action * result A.

Definition act_ret {A : Type} (a : A) : act A := ([], Returned a).
Definition act_raise {A : Type} (e : exn) : act A := ([], Raised e).
Definition act_call {A : Type} (a : action) (answer : result A) : act A :=
  ([a], answer).
Definition act_lift {A : Type} (m : io A) : act A :=
  (map Host (fst m), snd m).
Definition act_pure {A : Type} (r : result A) : act A := ([], r).

Definition act_bind {A B : Type} (m : act A) (f : A -> act B) : act B :=
  match m with
  | (tr, Returned a) => let (tr', r) := f a in ((tr ++ tr')%list, r)
  | (tr, Raised e) => (tr, Raised e)
  end.

Notation "x <<- m ;; k" := (act_bind m (fun x => k))
  (at level 61, m at next level, right associativity).

(** The fields that the dialog returns, in the order of its labels. *)
Record fields : Type := mkFields {
  f_filename : string;
  f_filetype : string;
  f_description : string;
  f_visibility : string
}.

(** The list [initial_contents]; its items are evaluated in order. *)
Definition initial_contents (p : parm) : result (list string) :=
  let filename := guess_filename (parm_node p) in
  filetype <- guess_filetype p ;;
  description <- auto_populate_desc (parm_text p) ;;
  Returned [filename; filetype; description; "public"].

(** [hou.ui.readMultiInput(...)]: the name [hou] is not bound where the
    import at the top of the module failed; otherwise the host shows the
    dialog and answers with the button and the fields, or raises. *)
Definition readMultiInput (h : host) (dialog : result (nat * fields))
    (initial : list string) : act (nat * fields) :=
  if hou_importable h
  then act_call (ReadMultiInput initial) dialog
  else act_raise (OtherException "NameError" "name 'hou' is not defined").

(** [gist_request.post()]: one request, answered by a response or by an
    exception of the transport. *)
Definition post (network : result response) (self : GistRequest.t)
  : act response :=
  act_call (Post (GistRequest.url self) (GistRequest.data self)
                 (GistRequest.headers self) 60)
           network.

Definition push_message : string :=
  "Unable to push to GitHub. "
  ++ "Please ensure your personal access token exists and is not "
  ++ "expired, and that your username is typed correctly.".

(** The second [try] statement: a bare [except] catches whatever [post]
    raises and hands a new [GistError] to the handler.  [None] is the
    local [response] left unbound. *)
Definition post_try (h : host) (network : result response)
    (gist_request : GistRequest.t) : act (option response) :=
  match post network gist_request with
  | (tr, Returned r) => (tr, Returned (Some r))
  | (tr, Raised _) =>
      _ <<- ((tr, Returned tt) : act unit) ;;
      _ <<- act_lift (GistErrorHandler.__init__ h (GistError push_message)) ;;
      act_ret None
  end.

(** What follows the two [try] statements. *)
Definition report (gist_request : GistRequest.t) (response : option response)
  : act unit :=
  match response with
  | None =>
      act_raise (OtherException "UnboundLocalError"
                   "local variable 'response' referenced before assignment")
  | Some r =>
      if ok r then
        id <<- act_pure (body <- json_body r ;; getitem body "id") ;;
        let link :=
          GIST_URL ++ "/" ++ GitHubAuth.user (GistRequest.auth gist_request)
          ++ "/" ++ id in
        act_call (DisplayDetails "Created Gist. See link below." "Success!"
                                 "Show Link" link)
                 (Returned tt)
      else
        body <<- act_pure (json_body r) ;;
        _ <<- act_call (Print body) (Returned tt) ;;
        act_call (Host (DisplayMessage "Unable to create gist." "Fail" Error))
                 (Returned tt)
  end.

(** [create(parm)].  [tokenfile] is the text of the token file, if there is
    one; [dialog] and [network] are the answers of the host and of the
    network. *)
Definition create (h : host) (tokenfile : option string)
    (dialog : result (nat * fields)) (network : result response) (p : parm)
  : act unit :=
  let snippet := parm_text p in
  initial <<- act_pure (initial_contents p) ;;
  content <<- readMultiInput h dialog initial ;;
  if fst content =? 0 then act_ret tt
  else
    let f := snd content in
    built <<- act_lift (create_try h tokenfile (f_filename f) (f_filetype f)
                          (f_description f) (f_visibility f) snippet) ;;
    match built with
    | None => act_ret tt
    | Some gist_request =>
        response <<- post_try h network gist_request ;;
        report gist_request response
    end.

(** The number of requests in a trace. *)
Definition posts (tr : list action) : nat :=
  List.length (filter (fun a => match a with Post _ _ _ _ => true | _ => false end) tr).

(** The messages shown to the user in a trace, whatever the dialog. *)
Fixpoint shown (tr : list action) : list string :=
  match tr with
  | [] => []
  | Host (DisplayMessage text _ _) :: tr' => text :: shown tr'
  | DisplayDetails text _ _ _ :: tr' => text :: shown tr'
  | _ :: tr' => shown tr'
  end.

End Create.


(** ** The vocabulary of the properties *)

(** The extension with its leading dot. *)
Definition dotted (ext : string) : string :=
  if startswith "." ext then ext else "." ++ ext.

(** A filename that begins with [gistfile] and at least one digit. *)
Definition gistfileN (name : string) : bool :=
  startswith "gistfile" name &&
  match drop 8 name with
  | String d _ => isdigit d
  | EmptyString => false
  end.

(** The description as [desc.setter] stores it. *)
Definition tidy_desc (description : string) : string :=
  Gist._desc (Gist.set_desc Gist.blank description).

(** The allow-list without its dots. *)
Definition bare_extensions : list string := ["h"; "vfl"; "c"; "cl"; "py"].

(** What each setter accepts, in terms of its argument alone. *)
Definition ext_ok (ext : string) : bool :=
  contains VALID_EXTENSIONS (dotted ext).
Definition visibility_ok (visibility : string) : bool :=
  contains VISIBILITY_TAGS visibility.
Definition filename_ok (filename : string) : bool :=
  negb (is_empty filename) && negb (gistfileN filename).
Definition snippet_ok (snippet : string) : bool :=
  negb (is_empty snippet).

(** Whether every character of a text is in a class. *)
Fixpoint all_chars (p : ascii -> bool) (s : string) : bool :=
  match s with
  | EmptyString => true
  | String c s' => p c && all_chars p s'
  end.

(** A run of whitespace, and a run without any. *)
Definition blank_run (s : string) : bool := all_chars isspace s.
Definition solid_run (s : string) : bool :=
  all_chars (fun c => negb (isspace c)) s.

Definition is_word (w : string) : Prop := w <> EmptyString /\ solid_run w = true.
Definition is_gap (sp : string) : Prop := sp <> EmptyString /\ blank_run sp = true.

(** Gaps and words in turn: [gap1 word1 gap2 word2 ...]. *)
Fixpoint spaced (l : list (string * string)) : string :=
  match l with
  | [] => EmptyString
  | (sp, w) :: l' => sp ++ w ++ spaced l'
  end.

(** The tokens as the first pattern reads them. *)
Definition openings : list string := map unescape comment_tokens.


(** The pattern as the specification reads it, [^r$]: a match of [r] that
    takes the whole text. *)
Definition anchored_match (r : regex) (s : string) : option groups :=
  exec r s [] (fun s' g => if is_empty s' then Some g else None).

Definition line_feed_free (s : string) : bool :=
  all_chars (fun a => negb (Ascii.eqb a newline)) s.



(** The last and the first character of a text, if it has one. *)
Fixpoint last_char (s : string) : option ascii :=
  match s with
  | EmptyString => None
  | String c EmptyString => Some c
  | String _ s' => last_char s'
  end.

Definition first_char (s : string) : option ascii :=
  match s with
  | EmptyString => None
  | String c _ => Some c
  end.

(** A text that neither begins nor ends with a character of a class. *)
Definition clean_ends (p : ascii -> bool) (s : string) : Prop :=
  (forall c, first_char s = Some c -> p c = false) /\
  (forall c, last_char s = Some c -> p c = false).

(** The description with its first character in upper case, before the
    periods at its end are removed. *)
Definition capitalised (description : string) : string :=
  match description with
  | String c rest => String (upper_char c) rest
  | EmptyString => EmptyString
  end.

(** [t] occurs in [s]. *)
Definition occurs (t s : string) : Prop := exists a b, s = a ++ t ++ b.

(** A text without a carriage return, and one without any line end. *)
Definition carriage_return_free (s : string) : bool :=
  all_chars (fun a => negb (Ascii.eqb a carriage_return)) s.


(** * Properties *)

(** ** Python strings *)

Section StringFacts.

Lemma append_empty_r (s : string) : s ++ EmptyString = s.
Proof. induction s; simpl; congruence. Qed.

Lemma append_assoc (a b c : string) : (a ++ b) ++ c = a ++ (b ++ c).
Proof. induction a; simpl; congruence. Qed.

Lemma skip_append (t s : string) : skip t (t ++ s) = Some s.
Proof.
  induction t as [|a t IH]; simpl; [reflexivity|].
  now rewrite Ascii.eqb_refl.
Qed.

Lemma skip_some (t s s' : string) : skip t s = Some s' -> s = t ++ s'.
Proof.
  revert s; induction t as [|a t IH]; intros s H; simpl in *.
  - congruence.
  - destruct s as [|b s]; [discriminate|].
    destruct (Ascii.eqb_spec a b) as [->|]; [|discriminate].
    now rewrite (IH _ H).
Qed.

Lemma skip_prefix (t s : string) :
  skip t s = if String.prefix t s then Some (drop (String.length t) s) else None.
Proof.
  revert s; induction t as [|a t IH]; intros s; simpl.
  - now destruct s.
  - destruct s as [|b s]; [reflexivity|].
    change (String.prefix (String a t) (String b s))
      with (if ascii_dec a b then String.prefix t s else false).
    destruct (Ascii.eqb_spec a b) as [->|Hab].
    + destruct (ascii_dec b b); [apply IH|congruence].
    + destruct (ascii_dec a b); [congruence|reflexivity].
Qed.

Lemma skip_none_iff (t s : string) :
  skip t s = None <-> startswith t s = false.
Proof.
  unfold startswith; rewrite skip_prefix.
  destruct (String.prefix t s); split; congruence.
Qed.

Lemma take_append (a b : string) : take (String.length a) (a ++ b) = a.
Proof. induction a; simpl; [now destruct b|congruence]. Qed.

Lemma length_append (a b : string) :
  String.length (a ++ b) = String.length a + String.length b.
Proof. induction a; simpl; congruence. Qed.

Lemma length_drop (n : nat) (s : string) :
  String.length (drop n s) = String.length s - n.
Proof.
  revert s; induction n as [|n IH]; intros [|c s]; simpl; auto.
Qed.

Lemma consumed_append (a b : string) : consumed (a ++ b) b = a.
Proof.
  unfold consumed; rewrite length_append.
  replace (_ + _ - _) with (String.length a) by lia.
  apply take_append.
Qed.

Lemma consumed_drop (n : nat) (s : string) :
  n <= String.length s -> consumed s (drop n s) = take n s.
Proof.
  intros H; unfold consumed; rewrite length_drop.
  f_equal; lia.
Qed.

Lemma is_empty_false (s : string) : is_empty s = false <-> s <> EmptyString.
Proof. destruct s; simpl; split; congruence. Qed.

(** Stripping on the right forgets a tail of stripped characters. *)
Lemma rstrip_by_append_stripped (p : ascii -> bool) (s t : string) :
  rstrip_by p t = EmptyString -> rstrip_by p (s ++ t) = rstrip_by p s.
Proof.
  intros Ht; induction s as [|c s IH]; simpl; [assumption|].
  now rewrite IH.
Qed.

End StringFacts.

(** ** The matcher *)

Section MatcherFacts.

(** A greedy repetition whose continuation cannot fail takes the longest
    run and never gives a character back. *)
Lemma star_total {A : Type} (c : ascii -> bool) (k : string -> option A) :
  (forall x, k x <> None) ->
  forall s, star c s k = k (lstrip_by c s).
Proof.
  intros Hk; induction s as [|a s IH]; simpl; [reflexivity|].
  destruct (c a); [|reflexivity].
  rewrite IH. destruct (k (lstrip_by c s)) eqn:E; [reflexivity|].
  now apply Hk in E.
Qed.

Lemma star_lazy_end {A : Type} (c : ascii -> bool) (k : string -> option A) :
  star_lazy c EmptyString k = k EmptyString.
Proof. simpl; now destruct (k _). Qed.

End MatcherFacts.

(** ** Gist: what each field accepts *)

Module GistFacts.
Import Gist.

Lemma gistfileN_iff (name : string) :
  gistfileN name = true <->
  exists d rest, name = "gistfile" ++ String d rest /\ isdigit d = true.
Proof.
  unfold gistfileN, startswith; split.
  - intros H; apply andb_prop in H as [Hp Hd].
    pose proof (skip_prefix "gistfile" name) as Hs; rewrite Hp in Hs.
    apply skip_some in Hs. simpl String.length in Hs.
    destruct (drop 8 name) as [|d rest]; [discriminate|].
    now exists d, rest.
  - intros (d & rest & -> & Hd). simpl. exact Hd.
Qed.

(** [re.match(r"gistfile\d+", name)] finds a match exactly on the names
    that begin with [gistfile] and a digit. *)
Lemma first_illegal_spec (name : string) :
  first_illegal illegal name =
  if gistfileN name
  then Some (GistError "Gist files cannot contain gistfile\d+")
  else None.
Proof.
  unfold first_illegal, illegal, re_match, gistfileN, startswith.
  cbn [exec]. rewrite skip_prefix. cbn [String.length].
  destruct (String.prefix "gistfile" name); cbn [andb]; [|reflexivity].
  destruct (drop 8 name) as [|d rest]; [reflexivity|].
  unfold digit. destruct (isdigit d); [|reflexivity].
  rewrite star_total by discriminate. reflexivity.
Qed.

Lemma set_ext_spec (self : t) (ext : string) :
  set_ext self ext =
  if contains VALID_EXTENSIONS (dotted ext)
  then Returned (with_ext self (dotted ext))
  else Raised (GistError ext_message).
Proof.
  unfold set_ext, dotted.
  destruct (startswith "." ext); cbn [negb];
    now destruct (contains VALID_EXTENSIONS _).
Qed.

Lemma set_visibility_spec (self : t) (viz : string) :
  set_visibility self viz =
  if negb (contains VISIBILITY_TAGS (lower viz))
  then Raised (ValueError visibility_message)
  else if contains VISIBILITY_TAGS viz
       then Returned (with_public (with_visibility self viz)
                        (String.eqb viz "public"))
       else Raised (ValueError "tuple.index(x): x not in tuple").
Proof.
  unfold set_visibility.
  destruct (contains VISIBILITY_TAGS (lower viz)); cbn [negb]; [|reflexivity].
  unfold VISIBILITY_TAGS, contains; cbn [index existsb].
  rewrite (String.eqb_sym "private" viz), (String.eqb_sym "public" viz).
  destruct (String.eqb_spec viz "private") as [->|]; [reflexivity|].
  destruct (String.eqb_spec viz "public") as [->|]; reflexivity.
Qed.

Lemma set_filename_spec (self : t) (name : string) :
  set_filename self name =
  if is_empty name
  then Raised (GistError "Filename cannot be an empty string!")
  else if gistfileN name
       then Raised (GistError "Gist files cannot contain gistfile\d+")
       else Returned (with_name self (join "_" (split name) ++ _ext self)).
Proof.
  unfold set_filename. rewrite first_illegal_spec.
  destruct (is_empty name); [reflexivity|].
  now destruct (gistfileN name).
Qed.

(** [Gist.__init__] in one piece: the first field that is refused, in the
    order of the assignments, decides the error. *)
Lemma init_spec (filename ext desc snippet visibility : string) :
  __init__ filename ext desc snippet visibility =
  if negb (contains VALID_EXTENSIONS (dotted ext))
  then Raised (GistError ext_message)
  else if negb (contains VISIBILITY_TAGS (lower visibility))
  then Raised (ValueError visibility_message)
  else if negb (contains VISIBILITY_TAGS visibility)
  then Raised (ValueError "tuple.index(x): x not in tuple")
  else if is_empty filename
  then Raised (GistError "Filename cannot be an empty string!")
  else if gistfileN filename
  then Raised (GistError "Gist files cannot contain gistfile\d+")
  else if is_empty snippet
  then Raised (GistError "Snippet cannot be empty!")
  else Returned (mk (dotted ext) visibility true
                    (join "_" (split filename) ++ dotted ext)
                    (tidy_desc desc) snippet).
Proof.
  unfold __init__. rewrite set_ext_spec.
  destruct (contains VALID_EXTENSIONS (dotted ext)); cbn [negb bind];
    [|reflexivity].
  rewrite set_visibility_spec.
  destruct (contains VISIBILITY_TAGS (lower visibility)); cbn [negb bind];
    [|reflexivity].
  destruct (contains VISIBILITY_TAGS visibility); cbn [negb bind];
    [|reflexivity].
  rewrite set_filename_spec.
  destruct (is_empty filename); cbn [bind]; [reflexivity|].
  destruct (gistfileN filename); cbn [bind]; [reflexivity|].
  unfold set_snippet.
  destruct (is_empty snippet); cbn [bind]; [reflexivity|].
  unfold tidy_desc. destruct desc; reflexivity.
Qed.

End GistFacts.

(** ** [str.split]: words and gaps *)

Section SplitFacts.

Lemma split_from_solid (x w s : string) :
  solid_run x = true -> split_from w (x ++ s) = split_from (w ++ x) s.
Proof.
  revert w; induction x as [|c x IH]; intros w H; simpl in *.
  - now rewrite append_empty_r.
  - apply andb_prop in H as [Hc Hx].
    apply negb_true_iff in Hc; rewrite Hc.
    rewrite IH by assumption. now rewrite append_assoc.
Qed.

Lemma split_from_blank (sp s : string) :
  blank_run sp = true ->
  split_from EmptyString (sp ++ s) = split_from EmptyString s.
Proof.
  induction sp as [|c sp IH]; intros H; simpl in *; [reflexivity|].
  apply andb_prop in H as [Hc Hsp]. rewrite Hc. simpl. auto.
Qed.

Lemma split_from_gap (sp w s : string) :
  w <> EmptyString -> is_gap sp ->
  split_from w (sp ++ s) = w :: split_from EmptyString s.
Proof.
  intros Hw [Hne Hsp]. destruct sp as [|c sp]; [congruence|].
  simpl in *. apply andb_prop in Hsp as [Hc Hsp]. rewrite Hc.
  apply is_empty_false in Hw; rewrite Hw.
  now rewrite split_from_blank.
Qed.

Lemma split_from_tail (w trail : string) :
  w <> EmptyString -> blank_run trail = true -> split_from w trail = [w].
Proof.
  intros Hw Ht. destruct trail as [|c trail].
  - simpl. apply is_empty_false in Hw; now rewrite Hw.
  - rewrite <- (append_empty_r (String c trail)).
    rewrite split_from_gap; [reflexivity|assumption|split; [discriminate|assumption]].
Qed.

Lemma split_from_spaced (l : list (string * string)) (w trail : string) :
  w <> EmptyString ->
  Forall (fun p => is_gap (fst p) /\ is_word (snd p)) l ->
  blank_run trail = true ->
  split_from w (spaced l ++ trail) = w :: map snd l.
Proof.
  revert w; induction l as [|[sp x] l IH]; intros w Hw Hl Ht; simpl.
  - now apply split_from_tail.
  - inversion Hl as [|? ? [Hsp [Hx1 Hx2]] Hl']; subst; simpl in *.
    rewrite !append_assoc, split_from_gap by assumption.
    rewrite split_from_solid by assumption. simpl.
    now rewrite IH.
Qed.

(** [split] returns the words of a text, whatever the whitespace before,
    between and after them. *)
Lemma split_words (lead w trail : string) (l : list (string * string)) :
  blank_run lead = true -> is_word w ->
  Forall (fun p => is_gap (fst p) /\ is_word (snd p)) l ->
  blank_run trail = true ->
  split (lead ++ w ++ spaced l ++ trail) = w :: map snd l.
Proof.
  intros Hlead [Hw1 Hw2] Hl Ht. unfold split.
  rewrite split_from_blank, split_from_solid by assumption. simpl.
  now apply split_from_spaced.
Qed.

End SplitFacts.

(** ** Gist: construction *)

Module GistTheorems.
Import Gist GistFacts.

Lemma tag_is_lower (viz : string) :
  contains VISIBILITY_TAGS viz = true ->
  contains VISIBILITY_TAGS (lower viz) = true.
Proof.
  unfold VISIBILITY_TAGS, contains; cbn [existsb].
  destruct (String.eqb_spec viz "private") as [->|]; [reflexivity|].
  destruct (String.eqb_spec viz "public") as [->|]; [reflexivity|].
  discriminate.
Qed.

(** Whatever the visibility, a [Gist] that was constructed is public: the
    last assignment of [__init__] overwrites what the setter derived. *)
Lemma init_public (filename ext desc snippet visibility : string) (g : t) :
  __init__ filename ext desc snippet visibility = Returned g ->
  public g = true /\ _visibility g = visibility.
Proof.
  rewrite init_spec.
  repeat match goal with
         | |- context [if ?b then _ else _] => destruct b; try discriminate
         end.
  intros [= <-]. now split.
Qed.

(** C1 (code defect).  The setter derives [public] from the visibility, and
    [__init__] then assigns [True] over it: every constructed Gist stores
    its visibility string and is public, and so is the one constructed with
    visibility "private", which the claim wants not public. *)
Theorem private_gist_is_public :
  (forall filename ext desc snippet visibility,
      match __init__ filename ext desc snippet visibility with
      | Returned g => _visibility g = visibility /\ public g = true
      | Raised _ => True
      end) /\
  __init__ "snippet" "py" "A test" "some code" "private"
  = Returned (mk ".py" "private" true "snippet.py" "A test" "some code") /\
  (forall self, set_visibility self "private"
                = Returned (with_public (with_visibility self "private") false)).
Proof.
  split; [|split].
  - intros filename ext desc snippet visibility.
    destruct (__init__ _ _ _ _ _) as [g|e] eqn:E; [|exact I].
    apply init_public in E. tauto.
  - reflexivity.
  - intros self. reflexivity.
Qed.

(** A visibility that is a tag only after lowering passes the test of the
    setter and then fails in [VISIBILITY_TAGS.index]. *)
Lemma mixed_case_raises (filename ext desc snippet visibility : string) :
  contains VALID_EXTENSIONS (dotted ext) = true ->
  contains VISIBILITY_TAGS (lower visibility) = true ->
  contains VISIBILITY_TAGS visibility = false ->
  __init__ filename ext desc snippet visibility
  = Raised (ValueError "tuple.index(x): x not in tuple").
Proof.
  intros He Hl Hv. rewrite init_spec, He, Hl, Hv. reflexivity.
Qed.

(** C2 (code defect).  The setter lowers the visibility for its test and
    not for the lookup that follows: constructing with "Public" or with
    "PRIVATE" raises, where the claim wants it to succeed. *)
Theorem mixed_case_visibility_raises :
  __init__ "snippet" "py" "A test" "some code" "Public"
  = Raised (ValueError "tuple.index(x): x not in tuple") /\
  __init__ "snippet" "py" "A test" "some code" "PRIVATE"
  = Raised (ValueError "tuple.index(x): x not in tuple") /\
  (forall filename ext desc snippet visibility,
      contains VISIBILITY_TAGS (lower visibility) = false ->
      exists e, __init__ filename ext desc snippet visibility = Raised e).
Proof.
  split; [|split].
  - now apply mixed_case_raises.
  - now apply mixed_case_raises.
  - intros filename ext desc snippet visibility Hl.
    rewrite init_spec, Hl; cbn [negb].
    destruct (negb _); eexists; reflexivity.
Qed.

(** C2, at a visibility that is no tag in any case. *)
Lemma mixed_case_visibility_raises_witness :
  exists e, __init__ "snippet" "py" "A test" "some code" "unlisted" = Raised e.
Proof.
  destruct mixed_case_visibility_raises as (_ & _ & H).
  apply H. reflexivity.
Defined.

(** C5, as the claim states it, fails on the name [gistfile] alone: it is
    [gistfile] followed by no digit, and construction accepts it. *)
Lemma gistfile_alone_is_accepted :
  __init__ "gistfile" "py" "A test" "some code" "public"
  = Returned (mk ".py" "public" true "gistfile.py" "A test" "some code").
Proof. reflexivity. Qed.

(** C5 (amended).  With a valid extension, a visibility tag and a snippet
    that is not empty: construction fails on every filename that begins
    with [gistfile] and at least one digit; on every other filename that is
    not empty it succeeds, and the stored name is the words of the filename
    joined by single underscores, then the extension with its dot.  The
    words are what whitespace separates: whitespace before the first and
    after the last word is dropped. *)
Theorem filename_validation
    (filename ext desc snippet visibility : string) :
  contains VALID_EXTENSIONS (dotted ext) = true ->
  contains VISIBILITY_TAGS visibility = true ->
  snippet <> EmptyString ->
  ((exists d rest, filename = "gistfile" ++ String d rest /\ isdigit d = true) ->
   __init__ filename ext desc snippet visibility
   = Raised (GistError "Gist files cannot contain gistfile\d+")) /\
  (filename <> EmptyString ->
   ~ (exists d rest, filename = "gistfile" ++ String d rest /\ isdigit d = true) ->
   exists g,
     __init__ filename ext desc snippet visibility = Returned g /\
     _ext g = dotted ext /\
     startswith "." (_ext g) = true /\
     _name g = join "_" (split filename) ++ _ext g /\
     forall lead w l trail,
       filename = lead ++ w ++ spaced l ++ trail ->
       blank_run lead = true -> is_word w ->
       Forall (fun p => is_gap (fst p) /\ is_word (snd p)) l ->
       blank_run trail = true ->
       _name g = join "_" (w :: map snd l) ++ _ext g).
Proof.
  intros He Hv Hs.
  pose proof (tag_is_lower _ Hv) as Hl.
  apply is_empty_false in Hs.
  rewrite init_spec, He, Hl, Hv, Hs; cbn [negb].
  split.
  - intros H. apply gistfileN_iff in H.
    destruct filename as [|c f]; [discriminate H|].
    cbn [is_empty]. now rewrite H.
  - intros Hf Hn. apply is_empty_false in Hf. rewrite Hf.
    destruct (gistfileN filename) eqn:Hg.
    + exfalso. apply Hn. now apply gistfileN_iff.
    + eexists; split; [reflexivity|]. cbn [_ext _name].
      repeat split.
      * unfold dotted. destruct (startswith "." ext) eqn:E; [exact E|].
        unfold startswith; simpl. now destruct ext.
      * intros lead w l trail -> Hlead Hw Hl' Ht.
        now rewrite split_words.
Qed.

(** C5 (amended), at the filename [ my  file ] with extension [py]:
    the stored name is [my_file.py]. *)
Lemma filename_validation_witness :
  __init__ "gistfile12" "py" "A test" "some code" "public"
  = Raised (GistError "Gist files cannot contain gistfile\d+") /\
  exists g,
    __init__ " my  file " "py" "A test" "some code" "public" = Returned g /\
    _name g = "my_file.py".
Proof.
  assert (Hsn : "some code" <> EmptyString) by discriminate.
  split.
  - apply (filename_validation "gistfile12" "py" "A test" "some code" "public"
             eq_refl eq_refl Hsn).
    exists "1"%char, "2". split; reflexivity.
  - destruct (filename_validation " my  file " "py" "A test" "some code"
                "public" eq_refl eq_refl Hsn) as [_ H].
    destruct H as (g & Hg & Hext & _ & _ & Hw).
    + discriminate.
    + intros (d & rest & Hd & _). discriminate.
    + exists g; split; [exact Hg|].
      rewrite (Hw " " "my" [("  ", "file")] " "), Hext.
      * reflexivity.
      * reflexivity.
      * reflexivity.
      * split; [discriminate|reflexivity].
      * repeat constructor; simpl; discriminate.
      * reflexivity.
Defined.

(** C6, as the claim states it, fails on an empty filename together with
    a visibility that is no tag: the error is the one of the visibility,
    not the one of the filename. *)
Lemma visibility_reported_before_filename :
  set_filename blank EmptyString
  = Raised (GistError "Filename cannot be an empty string!") /\
  __init__ EmptyString "py" "A test" "some code" "unlisted"
  = Raised (ValueError visibility_message).
Proof. split; reflexivity. Qed.

(** C6 (amended).  The fields are validated in the order extension,
    visibility, filename, description, body: the error of a construction is
    the one that the setter of the first refused field raises, and the
    description is never refused. *)
Theorem validation_order (filename ext desc snippet visibility : string) :
  (ext_ok ext = false ->
   exists e, (forall self, set_ext self ext = Raised e) /\
             __init__ filename ext desc snippet visibility = Raised e) /\
  (ext_ok ext = true -> visibility_ok visibility = false ->
   exists e, (forall self, set_visibility self visibility = Raised e) /\
             __init__ filename ext desc snippet visibility = Raised e) /\
  (ext_ok ext = true -> visibility_ok visibility = true ->
   filename_ok filename = false ->
   exists e, (forall self, set_filename self filename = Raised e) /\
             __init__ filename ext desc snippet visibility = Raised e) /\
  (ext_ok ext = true -> visibility_ok visibility = true ->
   filename_ok filename = true -> snippet_ok snippet = false ->
   exists e, (forall self, set_snippet self snippet = Raised e) /\
             __init__ filename ext desc snippet visibility = Raised e) /\
  (ext_ok ext = true -> visibility_ok visibility = true ->
   filename_ok filename = true -> snippet_ok snippet = true ->
   exists g, __init__ filename ext desc snippet visibility = Returned g).
Proof.
  unfold ext_ok, visibility_ok, filename_ok, snippet_ok.
  rewrite init_spec. repeat split.
  - intros He. rewrite He. eexists; split; [|reflexivity].
    intros self. now rewrite set_ext_spec, He.
  - intros He Hv. rewrite He, Hv; cbn [negb].
    destruct (contains VISIBILITY_TAGS (lower visibility)) eqn:Hl; cbn [negb];
      (eexists; split; [|reflexivity]);
      intros self; now rewrite set_visibility_spec, Hl, Hv.
  - intros He Hv Hf. rewrite He, Hv, (tag_is_lower _ Hv); cbn [negb].
    destruct (is_empty filename) eqn:Hfe;
      [|cbn [negb andb] in Hf; apply negb_false_iff in Hf; rewrite Hf];
      (eexists; split; [|reflexivity]);
      intros self; rewrite set_filename_spec, Hfe; [reflexivity|].
    now rewrite Hf.
  - intros He Hv Hf Hs. rewrite He, Hv, (tag_is_lower _ Hv); cbn [negb].
    apply andb_prop in Hf as [Hf1 Hf2].
    apply negb_true_iff in Hf1, Hf2. apply negb_false_iff in Hs.
    rewrite Hf1, Hf2, Hs. eexists; split; [|reflexivity].
    intros self. unfold set_snippet. now rewrite Hs.
  - intros He Hv Hf Hs. rewrite He, Hv, (tag_is_lower _ Hv); cbn [negb].
    apply andb_prop in Hf as [Hf1 Hf2].
    apply negb_true_iff in Hf1, Hf2, Hs.
    rewrite Hf1, Hf2, Hs. eexists; reflexivity.
Qed.

(** C6 (amended), at a bad filename with a bad body: the filename is
    reported; and at a bad extension with every other field bad too. *)
Lemma validation_order_witness :
  __init__ EmptyString "py" "A test" EmptyString "public"
  = Raised (GistError "Filename cannot be an empty string!") /\
  __init__ EmptyString "txt" "A test" EmptyString "unlisted"
  = Raised (GistError ext_message).
Proof.
  split.
  - destruct (validation_order EmptyString "py" "A test" EmptyString "public")
      as (_ & _ & H & _).
    destruct (H eq_refl eq_refl eq_refl) as (e & He & ->).
    specialize (He blank). cbv in He. now injection He as <-.
  - destruct (validation_order EmptyString "txt" "A test" EmptyString "unlisted")
      as (H & _).
    destruct (H eq_refl) as (e & He & ->).
    specialize (He blank). cbv in He. now injection He as <-.
Defined.

(** The extensions that are accepted: the allow-list, and the allow-list
    without its dots. *)
Lemma ext_ok_iff (ext : string) :
  ext_ok ext = true <-> In ext (VALID_EXTENSIONS ++ bare_extensions)%list.
Proof.
  unfold ext_ok, contains, dotted, VALID_EXTENSIONS, bare_extensions, startswith.
  split.
  - destruct ext as [|c ext]; [discriminate|].
    change (String.prefix "." (String c ext))
      with (if ascii_dec "." c then String.prefix EmptyString ext else false).
    destruct (ascii_dec "." c) as [<-|Hc].
    + replace (String.prefix EmptyString ext) with true by now destruct ext.
      cbn [existsb]. intros H.
      repeat (apply orb_prop in H as [H|H];
              [apply String.eqb_eq in H; rewrite H; simpl; tauto|]).
      discriminate.
    + cbn [existsb]. intros H.
      repeat (apply orb_prop in H as [H|H];
              [apply String.eqb_eq in H; simpl in H; injection H as -> ->;
               simpl; tauto|]).
      discriminate.
  - simpl. intros H.
    repeat (destruct H as [<-|H]; [reflexivity|]). destruct H.
Qed.

(** C7.  The setter of the extension accepts exactly the allow-list, with
    or without the leading dot; the extension that the Gist then holds is
    in the allow-list and has the leading dot, after the setter and after
    every construction that returns; on any other extension the setter,
    and with it the construction, raises the [GistError] whose message
    lists the allow-list. *)
Theorem extension_validation (ext : string) :
  ext_message = "Extension must be one of the following: .h .vfl .c .cl .py" /\
  (In ext [".h"; ".vfl"; ".c"; ".cl"; ".py"; "h"; "vfl"; "c"; "cl"; "py"] ->
   exists stored,
     In stored VALID_EXTENSIONS /\
     startswith "." stored = true /\
     (stored = ext \/ stored = "." ++ ext) /\
     (forall self,
         set_ext self ext
         = Returned (mk stored (_visibility self) (public self) (_name self)
                        (_desc self) (_snippet self))) /\
     (forall self g, set_ext self ext = Returned g -> _ext g = stored) /\
     (forall filename desc snippet visibility g,
         __init__ filename ext desc snippet visibility = Returned g ->
         _ext g = stored)) /\
  (~ In ext [".h"; ".vfl"; ".c"; ".cl"; ".py"; "h"; "vfl"; "c"; "cl"; "py"] ->
   (forall self, set_ext self ext = Raised (GistError ext_message)) /\
   forall filename desc snippet visibility,
     __init__ filename ext desc snippet visibility
     = Raised (GistError ext_message)).
Proof.
  split; [reflexivity|]. split.
  - intros H. exists (dotted ext).
    assert (Hok : ext_ok ext = true) by now apply ext_ok_iff.
    assert (Hset : forall self,
               set_ext self ext
               = Returned (mk (dotted ext) (_visibility self) (public self)
                              (_name self) (_desc self) (_snippet self))).
    { intros self. rewrite set_ext_spec. unfold ext_ok in Hok.
      now rewrite Hok. }
    simpl in H.
    split; [|split; [|split; [|split; [|split]]]].
    + repeat (destruct H as [<-|H]; [simpl; tauto|]). destruct H.
    + repeat (destruct H as [<-|H]; [reflexivity|]). destruct H.
    + unfold dotted. destruct (startswith "." ext); tauto.
    + exact Hset.
    + intros self g Hg. rewrite Hset in Hg. now injection Hg as <-.
    + intros filename desc snippet visibility g. rewrite init_spec.
      repeat match goal with
             | |- context [if ?b then _ else _] => destruct b; try discriminate
             end.
      now intros [= <-].
  - intros H.
    assert (Hok : ext_ok ext = false).
    { destruct (ext_ok ext) eqn:E; [|reflexivity].
      exfalso. apply H. now apply ext_ok_iff. }
    unfold ext_ok in Hok. split.
    + intros self. now rewrite set_ext_spec, Hok.
    + intros. now rewrite init_spec, Hok.
Qed.

(** C7, at [vfl], held as [.vfl] after the setter and after a
    construction, and at [txt], which is refused. *)
Lemma extension_validation_witness :
  set_ext blank "vfl"
  = Returned (mk ".vfl" EmptyString false EmptyString EmptyString EmptyString) /\
  _ext (mk ".vfl" "public" true "snippet.vfl" "A test" "some code") = ".vfl" /\
  __init__ "snippet" "txt" "A test" "some code" "public"
  = Raised (GistError
              "Extension must be one of the following: .h .vfl .c .cl .py").
Proof.
  destruct (extension_validation "vfl") as (_ & H & _).
  destruct H as (stored & _ & _ & Hs & Hset & _ & Hinit); [simpl; tauto|].
  assert (E : stored = ".vfl").
  { destruct Hs as [Hs|Hs]; [|exact Hs].
    specialize (Hset blank). rewrite Hs in Hset. discriminate Hset. }
  split; [|split].
  - rewrite (Hset blank), E. reflexivity.
  - transitivity stored; [|exact E].
    apply (Hinit "snippet" "A test" "some code" "public"). reflexivity.
  - destruct (extension_validation "txt") as (_ & _ & H).
    apply H. simpl.
    intros Hin.
    repeat (destruct Hin as [Hin|Hin]; [discriminate Hin|]). destruct Hin.
Defined.

End GistTheorems.

(** ** Heuristics *)

Section HeuristicFacts.

Lemma first_match (tok rest : string) :
  In tok openings ->
  exists line,
    re_match (Seq (Group (alternation comment_tokens)) (Group (Star dot)))
             (tok ++ rest)
    = Some [tok; line].
Proof.
  unfold openings, comment_tokens, singleline, multiline, re_match.
  cbn [map app unescape triple alternation literal].
  intros H.
  cbn [exec].
  match goal with
  | |- context [exec _ _ _ ?k] => set (K := k)
  end.
  assert (HK : forall s', K s' [] = Some [consumed (tok ++ rest) s'; consumed s' (lstrip_by dot s')]).
  { intros s'. unfold K.
    now rewrite (star_total dot (fun s'0 => Some (([] ++ [consumed (tok ++ rest) s']) ++ [consumed s' s'0])%list))
      by discriminate. }
  clearbody K.
  repeat (destruct H as [<-|H]); [..|destruct H];
    unfold literal; cbn [unescape exec]; simpl skip; cbv beta iota;
    rewrite HK, consumed_append; eexists; reflexivity.
Qed.

Lemma no_first_match (snippet : string) :
  (forall tok, In tok openings -> startswith tok snippet = false) ->
  re_match (Seq (Group (alternation comment_tokens)) (Group (Star dot)))
           snippet
  = None.
Proof.
  unfold openings, comment_tokens, singleline, multiline, re_match.
  cbn [map app unescape triple alternation literal].
  intros H.
  cbn [exec]. unfold literal; cbn [unescape exec].
  repeat match goal with
         | |- context [skip ?t snippet] =>
             replace (skip t snippet) with (@None string)
               by (symmetry; apply skip_none_iff, H; simpl; tauto)
         end.
  reflexivity.
Qed.

(** The first place where [t] occurs is never past the end. *)
Lemma find_le (t s : string) (n : nat) :
  find t s = Some n -> n <= String.length s.
Proof.
  revert n; induction s as [|a s IH]; intros n; cbn [find String.length].
  - destruct (String.prefix t EmptyString); intros H; inversion H; lia.
  - destruct (String.prefix t (String a s)); [intros H; inversion H; lia|].
    destruct (find t s) as [m|]; [|discriminate].
    intros H; inversion H. specialize (IH m eq_refl). lia.
Qed.

(** A lazy repetition before a literal text stops at the first place where
    the text occurs, when the class lets every earlier character pass. *)
Lemma star_lazy_find {A : Type} (c : ascii -> bool) (t : string)
    (k : string -> option A) (f : string -> A) :
  (forall a x, c a = false -> String.prefix t (String a x) = true) ->
  (forall s', k s' = if String.prefix t s' then Some (f s') else None) ->
  forall s,
    star_lazy c s k
    = match find t s with
      | Some n => Some (f (drop n s))
      | None => None
      end.
Proof.
  intros Hc Hk; induction s as [|a s IH].
  - rewrite star_lazy_end, Hk. cbn [find].
    now destruct (String.prefix t EmptyString).
  - cbn [star_lazy find]. rewrite Hk.
    destruct (String.prefix t (String a s)) eqn:Hp; [reflexivity|].
    destruct (c a) eqn:Hca.
    + rewrite IH. now destruct (find t s).
    + rewrite (Hc a s Hca) in Hp. discriminate.
Qed.

Lemma prefix_empty (s : string) : String.prefix EmptyString s = true.
Proof. now destruct s. Qed.

Lemma prefix_chr (c a : ascii) (x : string) :
  String.prefix (chr c) (String a x) = Ascii.eqb a c.
Proof.
  unfold chr.
  change (String.prefix (String c EmptyString) (String a x))
    with (if ascii_dec c a then String.prefix EmptyString x else false).
  rewrite prefix_empty.
  destruct (Ascii.eqb_spec a c); destruct (ascii_dec c a); congruence.
Qed.



(** The second pattern of the single-line branch: the text up to the
    first line feed, when there is one. *)
Lemma single_match (tok rest : string) :
  In tok singleline ->
  re_match (Seq (literal tok)
                (Group (Seq (StarLazy dot) (Ahead (Text (chr newline))))))
           (tok ++ rest)
  = match find (chr newline) rest with
    | Some n => Some [take n rest]
    | None => None
    end.
Proof.
  intros H.
  assert (Hu : unescape tok = tok).
  { unfold singleline in H. repeat (destruct H as [<-|H]); [..|destruct H];
      reflexivity. }
  unfold re_match, literal. rewrite Hu. cbn [exec].
  rewrite skip_append.
  rewrite (star_lazy_find dot (chr newline) _ (fun s' => [consumed rest s'])).
  - destruct (find (chr newline) rest) as [n|] eqn:E; [|reflexivity].
    now rewrite consumed_drop by (eapply find_le; eassumption).
  - intros a x Ha. rewrite prefix_chr.
    unfold dot in Ha. now apply negb_false_iff in Ha.
  - intros s'. rewrite skip_prefix.
    now destruct (String.prefix (chr newline) s').
Qed.

(** The second pattern of the multi-line branch: the text up to the first
    place where the token occurs again, when there is one. *)
Lemma multi_match (tok rest : string) :
  In tok [triple "'"%char; triple dquote] ->
  re_match (Seq (literal tok)
                (Seq (Group (StarLazy anychar)) (literal (reversed tok))))
           (tok ++ rest)
  = match find tok rest with
    | Some n => Some [take n rest]
    | None => None
    end.
Proof.
  intros H.
  assert (Hu : unescape tok = tok /\ reversed tok = tok).
  { repeat (destruct H as [<-|H]); [..|destruct H]; split; reflexivity. }
  destruct Hu as [Hu Hr].
  unfold re_match, literal. rewrite Hr, Hu. cbn [exec].
  rewrite skip_append.
  rewrite (star_lazy_find anychar tok _ (fun s' => [consumed rest s'])).
  - destruct (find tok rest) as [n|] eqn:E; [|reflexivity].
    now rewrite consumed_drop by (eapply find_le; eassumption).
  - intros a x Ha. discriminate.
  - intros s'. rewrite skip_prefix.
    now destruct (String.prefix tok s').
Qed.

(** [auto_populate_desc] on a snippet that opens with a single-line
    token. *)
Lemma desc_single (tok rest : string) :
  In tok singleline ->
  auto_populate_desc (tok ++ rest)
  = Returned (lstrip (rstrip
      match find (chr newline) rest with
      | Some n => take n rest
      | None => EmptyString
      end)).
Proof.
  intros H. unfold auto_populate_desc.
  destruct (first_match tok rest) as [line ->].
  { unfold singleline in H. repeat (destruct H as [<-|H]); [..|destruct H];
      simpl; tauto. }
  cbn [group Nat.sub nth].
  replace (contains singleline tok) with true
    by (unfold singleline in H;
        repeat (destruct H as [<-|H]); [..|destruct H]; reflexivity).
  rewrite single_match by assumption.
  now destruct (find (chr newline) rest).
Qed.

(** [auto_populate_desc] on a snippet that opens with a triple quote. *)
Lemma desc_multi (tok rest : string) :
  In tok [triple "'"%char; triple dquote] ->
  auto_populate_desc (tok ++ rest)
  = match find tok rest with
    | Some n =>
        Returned (lstrip (rstrip (replace_char newline " "%char (take n rest))))
    | None =>
        Raised (AttributeError "'NoneType' object has no attribute 'group'")
    end.
Proof.
  intros H. unfold auto_populate_desc.
  destruct (first_match tok rest) as [line ->].
  { repeat (destruct H as [<-|H]); [..|destruct H]; simpl; tauto. }
  cbn [group Nat.sub nth].
  replace (contains singleline tok) with false
    by (repeat (destruct H as [<-|H]); [..|destruct H]; reflexivity).
  replace (contains multiline tok) with true
    by (repeat (destruct H as [<-|H]); [..|destruct H]; reflexivity).
  rewrite multi_match by assumption.
  now destruct (find tok rest).
Qed.

(** A snippet that opens with a block comment gets no description: the
    text that the first pattern matched is not the token of [multiline],
    which holds a backslash. *)
Lemma desc_block (rest : string) :
  auto_populate_desc ("/*" ++ rest) = Returned EmptyString.
Proof.
  unfold auto_populate_desc.
  destruct (first_match "/*" rest) as [line ->]; [simpl; tauto|].
  reflexivity.
Qed.

Lemma desc_none (snippet : string) :
  (forall tok, In tok openings -> startswith tok snippet = false) ->
  auto_populate_desc snippet = Returned EmptyString.
Proof.
  intros H. unfold auto_populate_desc. now rewrite no_first_match.
Qed.

End HeuristicFacts.

Module HeuristicTheorems.




(** [re.match] with the pattern of [guess_filename] finds a match on every
    name that begins with the type name: [\d*] may match no digit, and
    nothing asks the match to reach the end of the name. *)
Lemma guess_filename_prefix (n : node) :
  guess_filename n
  = if startswith (type_name n) (name n) then EmptyString else name n.
Proof.
  unfold guess_filename, re_match, startswith. cbn [exec].
  rewrite skip_prefix.
  destruct (String.prefix (type_name n) (name n)); [|reflexivity].
  now rewrite star_total by discriminate.
Qed.

(** C4 (code defect).  The pattern of [guess_filename] is not anchored at
    its end: the guess is empty for every name that begins with the type
    name.  The node [wrangle_blur] of type [wrangle] has been renamed, its
    name does not match [^wrangle\d*$], and the guess is empty where the
    claim wants the name. *)
Theorem renamed_node_gets_no_filename :
  (forall n, guess_filename n
             = if startswith (type_name n) (name n) then EmptyString
               else name n) /\
  anchored_match (Seq (Text "wrangle") (Star digit)) "wrangle_blur" = None /\
  guess_filename (mkNode "wrangle_blur" "wrangle") = EmptyString /\
  guess_filename (mkNode "wrangle1" "wrangle") = EmptyString /\
  guess_filename (mkNode "my_custom_node" "wrangle") = "my_custom_node".
Proof.
  split; [exact guess_filename_prefix|].
  repeat split.
Qed.

End HeuristicTheorems.

(** ** Credentials *)

Module AuthTheorems.
Import GitHubAuth.









End AuthTheorems.

(** ** Error reporting *)

Module HandlerTheorems.
Import GistErrorHandler.

(** C9.  For every [GistError]: where [hou] cannot be imported, and where
    it can and has no user interface, the handler raises the error again
    and shows nothing; where the user interface is available it shows one
    error dialog with the message of the error and returns. *)
Theorem handler_by_context (h : host) (message : string) :
  (hou_importable h = false ->
   outcome (_get_context h) = Returned cli /\
   __init__ h (GistError message) = ([ImportHou], Raised (GistError message))) /\
  (hou_importable h = true -> ui_available h = false ->
   outcome (_get_context h) = Returned hou /\
   __init__ h (GistError message)
   = ([ImportHou; IsUIAvailable], Raised (GistError message))) /\
  (hou_importable h = true -> ui_available h = true ->
   outcome (_get_context h) = Returned hou_ui /\
   __init__ h (GistError message)
   = ([ImportHou; IsUIAvailable;
       DisplayMessage message "Gist Submission Error" Error],
      Returned (mk (GistError message) hou_ui))) /\
  (forall self,
      _context self = cli \/ _context self = hou ->
      handle self = ([], Raised (_err self))) /\
  (forall self,
      _context self = hou_ui ->
      handle self
      = ([DisplayMessage (message_of (_err self)) "Gist Submission Error" Error],
         Returned tt)).
Proof.
  split; [|split; [|split; [|split]]].
  - intros Hi. unfold __init__, _get_context. cbn [set_err is_GistError negb].
    rewrite Hi. split; reflexivity.
  - intros Hi Hu. unfold __init__, _get_context.
    cbn [set_err is_GistError negb]. rewrite Hi. cbn. rewrite Hu.
    split; reflexivity.
  - intros Hi Hu. unfold __init__, _get_context.
    cbn [set_err is_GistError negb]. rewrite Hi. cbn. rewrite Hu.
    split; reflexivity.
  - intros self [H|H]; unfold handle; now rewrite H.
  - intros self H; unfold handle; now rewrite H.
Qed.

(** C9, outside the host, in a batch session and in an interactive one. *)
Lemma handler_by_context_witness :
  __init__ (mkHost false false) (GistError "Snippet cannot be empty!")
  = ([ImportHou], Raised (GistError "Snippet cannot be empty!")) /\
  __init__ (mkHost true false) (GistError "Snippet cannot be empty!")
  = ([ImportHou; IsUIAvailable], Raised (GistError "Snippet cannot be empty!")) /\
  __init__ (mkHost true true) (GistError "Snippet cannot be empty!")
  = ([ImportHou; IsUIAvailable;
      DisplayMessage "Snippet cannot be empty!" "Gist Submission Error" Error],
     Returned (mk (GistError "Snippet cannot be empty!") hou_ui)).
Proof.
  split; [|split].
  - apply (handler_by_context (mkHost false false)). reflexivity.
  - apply (handler_by_context (mkHost true false)); reflexivity.
  - apply (handler_by_context (mkHost true true)); reflexivity.
Defined.

(** C10.  On an exception that is not a [GistError] the handler raises
    [TypeError] before it looks for the host: nothing is imported and
    nothing is shown.  The error of a visibility that is no tag is a
    [ValueError]; [create] does not catch it, so it leaves [create] without
    reaching the handler, whatever the session. *)
Theorem handler_refuses_other_errors (h : host) :
  (forall e,
      is_GistError e = false ->
      __init__ h e
      = ([], Raised (TypeError "Handler can only handle <GistError>s"))) /\
  (forall self visibility,
      contains VISIBILITY_TAGS (lower visibility) = false ->
      Gist.set_visibility self visibility
      = Raised (ValueError Gist.visibility_message)) /\
  (forall tokenfile filename filetype description visibility snippet e,
      build_request tokenfile filename filetype description visibility snippet
      = Raised e ->
      is_GistError e = false ->
      create_try h tokenfile filename filetype description visibility snippet
      = ([], Raised e)).
Proof.
  split; [|split].
  - intros e He. unfold __init__, set_err. now rewrite He.
  - intros self visibility Hv. unfold Gist.set_visibility. now rewrite Hv.
  - intros tokenfile filename filetype description visibility snippet e Hb He.
    unfold create_try. now rewrite Hb, He.
Qed.

(** C10, at the error of the visibility [unlisted], in an interactive
    session. *)
Lemma handler_refuses_other_errors_witness :
  __init__ (mkHost true true) (ValueError Gist.visibility_message)
  = ([], Raised (TypeError "Handler can only handle <GistError>s")) /\
  create_try (mkHost true true) None "snippet" "py" "A test" "unlisted"
             "some code"
  = ([], Raised (ValueError Gist.visibility_message)).
Proof.
  destruct (handler_refuses_other_errors (mkHost true true)) as (Hh & _ & Hc).
  split.
  - apply Hh. reflexivity.
  - apply Hc; reflexivity.
Defined.

End HandlerTheorems.

(** * Further properties *)

(** ** Stripping *)

Section StripFacts.

Lemma all_chars_append (p : ascii -> bool) (a b : string) :
  all_chars p (a ++ b) = all_chars p a && all_chars p b.
Proof.
  induction a as [|c a IH]; simpl; [reflexivity|].
  now rewrite IH, andb_assoc.
Qed.

Lemma is_empty_true_eq (s : string) : is_empty s = true -> s = EmptyString.
Proof. now destruct s. Qed.

(** What [rstrip_by] removes is a run of the class at the end. *)
Lemma rstrip_by_split (p : ascii -> bool) (s : string) :
  exists tail, s = rstrip_by p s ++ tail /\ all_chars p tail = true.
Proof.
  induction s as [|c s (tail & Hs & Ht)].
  - exists EmptyString. now split.
  - cbn [rstrip_by].
    destruct (is_empty (rstrip_by p s)) eqn:He; cbn [andb].
    + apply is_empty_true_eq in He.
      destruct (p c) eqn:Hc.
      * exists (String c s). split; [reflexivity|].
        rewrite He in Hs; cbn [append] in Hs. rewrite Hs at 1.
        cbn [all_chars]. now rewrite Hc, Ht.
      * exists tail. split; [|assumption]. cbn [append]. now rewrite <- Hs.
    + exists tail. split; [|assumption]. cbn [append]. now rewrite <- Hs.
Qed.

Lemma rstrip_by_last (p : ascii -> bool) (s : string) (c : ascii) :
  last_char (rstrip_by p s) = Some c -> p c = false.
Proof.
  induction s as [|a s IH]; cbn [rstrip_by]; [discriminate|].
  destruct (rstrip_by p s) as [|b r] eqn:Hr; cbn [is_empty andb].
  - destruct (p a) eqn:Ha; cbn [last_char]; [discriminate|].
    now intros [= <-].
  - exact IH.
Qed.

Lemma rstrip_by_idem (p : ascii -> bool) (s : string) :
  rstrip_by p (rstrip_by p s) = rstrip_by p s.
Proof.
  induction s as [|a s IH]; [reflexivity|].
  cbn [rstrip_by].
  destruct (is_empty (rstrip_by p s) && p a) eqn:E; [reflexivity|].
  cbn [rstrip_by]. now rewrite IH, E.
Qed.

(** What [lstrip_by] removes is a run of the class at the start. *)
Lemma lstrip_by_split (p : ascii -> bool) (s : string) :
  exists head, s = head ++ lstrip_by p s /\ all_chars p head = true.
Proof.
  induction s as [|c s (head & Hs & Hh)].
  - exists EmptyString. now split.
  - cbn [lstrip_by]. destruct (p c) eqn:Hc.
    + exists (String c head). cbn [append all_chars].
      rewrite Hc, Hh, <- Hs. now split.
    + exists EmptyString. now split.
Qed.

Lemma lstrip_by_first (p : ascii -> bool) (s : string) (c : ascii) :
  first_char (lstrip_by p s) = Some c -> p c = false.
Proof.
  induction s as [|a s IH]; cbn [lstrip_by]; [discriminate|].
  destruct (p a) eqn:Ha; [exact IH|].
  cbn [first_char]. now intros [= <-].
Qed.

Lemma last_char_append (a b : string) :
  b <> EmptyString -> last_char (a ++ b) = last_char b.
Proof.
  intros Hb; induction a as [|c a IH]; [reflexivity|].
  cbn [append last_char]. rewrite IH.
  destruct (a ++ b) eqn:E; [|reflexivity].
  destruct a; [cbn in E; congruence|discriminate].
Qed.

(** [s.rstrip().lstrip()] neither begins nor ends with whitespace. *)
Lemma strip_clean_ends (s : string) : clean_ends isspace (lstrip (rstrip s)).
Proof.
  split; intros c Hc.
  - now apply lstrip_by_first in Hc.
  - destruct (lstrip_by_split isspace (rstrip s)) as (head & Hs & _).
    unfold lstrip in Hc.
    apply (rstrip_by_last isspace s c). fold (rstrip s).
    rewrite Hs, last_char_append; [exact Hc|].
    intros E; rewrite E in Hc; discriminate.
Qed.

(** A class that holds of a whole text holds of what stripping leaves. *)
Lemma all_chars_rstrip_by (q p : ascii -> bool) (s : string) :
  all_chars q s = true -> all_chars q (rstrip_by p s) = true.
Proof.
  destruct (rstrip_by_split p s) as (tail & Hs & _).
  intros H. rewrite Hs, all_chars_append in H.
  now apply andb_prop in H.
Qed.

Lemma all_chars_lstrip_by (q p : ascii -> bool) (s : string) :
  all_chars q s = true -> all_chars q (lstrip_by p s) = true.
Proof.
  destruct (lstrip_by_split p s) as (head & Hs & _).
  intros H. rewrite Hs, all_chars_append in H.
  now apply andb_prop in H.
Qed.

Lemma upper_char_idem (c : ascii) : upper_char (upper_char c) = upper_char c.
Proof. destruct c as [[] [] [] [] [] [] [] []]; reflexivity. Qed.

End StripFacts.

(** ** The description of a Gist *)

Module DescTheorems.
Import Gist.

Lemma set_desc_capitalised (self : t) (description : string) :
  _desc (set_desc self description)
  = rstrip_by (Ascii.eqb ".") (capitalised description).
Proof. now destruct description. Qed.

(** X1.  The description that the setter stores is the given one with its
    first character in upper case and nothing but periods removed at its
    end; it does not end with a period; and storing a stored description
    again changes nothing. *)
Theorem description_is_tidied (self : t) (description : string) :
  let stored := _desc (set_desc self description) in
  (exists periods,
      capitalised description = stored ++ periods /\
      all_chars (Ascii.eqb ".") periods = true) /\
  last_char stored <> Some "."%char /\
  _desc (set_desc self stored) = stored.
Proof.
  cbv zeta. rewrite set_desc_capitalised.
  split; [|split].
  - apply rstrip_by_split.
  - intros H. apply rstrip_by_last in H. discriminate.
  - rewrite set_desc_capitalised.
    destruct description as [|c rest]; [reflexivity|].
    cbn [capitalised rstrip_by].
    destruct (is_empty (rstrip_by (Ascii.eqb ".") rest)
              && Ascii.eqb "." (upper_char c)) eqn:E; [reflexivity|].
    cbn [capitalised]. rewrite upper_char_idem.
    cbn [rstrip_by]. now rewrite rstrip_by_idem, E.
Qed.

End DescTheorems.

(** ** Gist: what construction stores *)

Module GistStored.
Import Gist GistFacts.

Lemma returns_iff
    (filename ext desc snippet visibility : string) (g : t) :
  __init__ filename ext desc snippet visibility = Returned g <->
  ext_ok ext = true /\ visibility_ok visibility = true /\
  filename_ok filename = true /\ snippet_ok snippet = true /\
  g = mk (dotted ext) visibility true
         (join "_" (split filename) ++ dotted ext)
         (tidy_desc desc) snippet.
Proof.
  rewrite init_spec.
  unfold ext_ok, visibility_ok, filename_ok, snippet_ok.
  destruct (contains VALID_EXTENSIONS (dotted ext)); cbn [negb];
    [|split; [discriminate|intros (H & _); discriminate]].
  destruct (contains VISIBILITY_TAGS visibility) eqn:Hv; cbn [negb].
  - rewrite (GistTheorems.tag_is_lower _ Hv); cbn [negb].
    destruct (is_empty filename); cbn [negb andb];
      [split; [discriminate|intros (_ & _ & H & _); discriminate]|].
    destruct (gistfileN filename); cbn [negb];
      [split; [discriminate|intros (_ & _ & H & _); discriminate]|].
    destruct (is_empty snippet); cbn [negb];
      [split; [discriminate|intros (_ & _ & _ & H & _); discriminate]|].
    split.
    + intros [= <-]. repeat split.
    + intros (_ & _ & _ & _ & ->). reflexivity.
  - split; [|intros (_ & H & _); discriminate].
    destruct (negb _); discriminate.
Qed.

(** X2.  Construction returns a Gist exactly when the extension is in the
    allow-list (with or without its dot), the visibility is one of the two
    tags as they are written, the filename is not empty and does not begin
    with [gistfile] and a digit, and the snippet is not empty; the Gist
    then holds the dotted extension, the visibility and the snippet as
    given, the composed filename, the tidied description, and is public. *)
Theorem construction_succeeds_iff
    (filename ext desc snippet visibility : string) (g : t) :
  __init__ filename ext desc snippet visibility = Returned g <->
  ext_ok ext = true /\ visibility_ok visibility = true /\
  filename_ok filename = true /\ snippet_ok snippet = true /\
  g = mk (dotted ext) visibility true
         (join "_" (split filename) ++ dotted ext)
         (tidy_desc desc) snippet.
Proof.
  split; intros H; now apply returns_iff.
Qed.

Lemma split_from_all_solid (s word : string) :
  solid_run word = true ->
  Forall (fun w => solid_run w = true) (split_from word s).
Proof.
  revert word; induction s as [|c s IH]; intros word Hw; cbn [split_from].
  - destruct (is_empty word); constructor; auto.
  - destruct (isspace c) eqn:Hc.
    + destruct (is_empty word); [now apply IH|].
      constructor; [assumption|now apply IH].
    + apply IH. unfold solid_run in *. rewrite all_chars_append, Hw.
      cbn. now rewrite Hc.
Qed.

Lemma join_solid (sep : string) (l : list string) :
  solid_run sep = true ->
  Forall (fun w => solid_run w = true) l ->
  solid_run (join sep l) = true.
Proof.
  intros Hsep Hl; induction Hl as [|w l Hw Hl IH]; [reflexivity|].
  cbn [join]. destruct l as [|w' l]; [assumption|].
  unfold solid_run in *. now rewrite !all_chars_append, Hw, Hsep, IH.
Qed.

Lemma valid_extension_solid (e : string) :
  contains VALID_EXTENSIONS e = true -> solid_run e = true.
Proof.
  unfold contains, VALID_EXTENSIONS; cbn [existsb]. intros H.
  repeat (apply orb_prop in H as [H|H];
          [apply String.eqb_eq in H; now rewrite H|]).
  discriminate.
Qed.

(** X3.  The filename of a constructed Gist holds no whitespace, whatever
    the filename that was given. *)
Theorem stored_filename_has_no_whitespace
    (filename ext desc snippet visibility : string) (g : t) :
  __init__ filename ext desc snippet visibility = Returned g ->
  solid_run (_name g) = true.
Proof.
  intros H. apply returns_iff in H as (He & _ & _ & _ & ->).
  cbn [_name]. unfold solid_run. rewrite all_chars_append.
  apply andb_true_intro; split.
  - apply join_solid; [reflexivity|]. now apply split_from_all_solid.
  - now apply valid_extension_solid.
Qed.

(** X3, at a filename with a tab and spaces in it. *)
Lemma stored_filename_has_no_whitespace_witness :
  solid_run "a_b_c.vfl" = true.
Proof.
  exact (stored_filename_has_no_whitespace
           ("a" ++ String "009" " b  c ") "vfl" "A test" "some code" "public"
           (mk ".vfl" "public" true "a_b_c.vfl" "A test" "some code")
           eq_refl).
Defined.

Lemma blank_not_reserved (c : ascii) (s : string) :
  isspace c = true -> gistfileN (String c s) = false.
Proof.
  intros Hc. unfold gistfileN, startswith.
  change (String.prefix "gistfile" (String c s))
    with (if ascii_dec "g" c then String.prefix "istfile" s else false).
  destruct (ascii_dec "g" c) as [<-|]; [discriminate Hc|reflexivity].
Qed.

Lemma split_blank (s : string) : blank_run s = true -> split s = [].
Proof.
  intros H. unfold split.
  rewrite <- (append_empty_r s). now rewrite split_from_blank.
Qed.

(** X4.  A filename that is nothing but whitespace is accepted, and the
    composed filename is then the extension alone. *)
Theorem blank_filename_is_accepted
    (filename ext desc snippet visibility : string) :
  filename <> EmptyString -> blank_run filename = true ->
  ext_ok ext = true -> visibility_ok visibility = true ->
  snippet_ok snippet = true ->
  exists g, __init__ filename ext desc snippet visibility = Returned g /\
            _name g = dotted ext.
Proof.
  intros Hne Hb He Hv Hs.
  eexists; split.
  - apply returns_iff. repeat split; try assumption.
    unfold filename_ok. destruct filename as [|c s]; [congruence|].
    cbn [blank_run all_chars] in Hb. apply andb_prop in Hb as [Hc _].
    now rewrite (blank_not_reserved c s Hc).
  - cbn [_name]. now rewrite split_blank.
Qed.

(** X4, at a filename of two spaces. *)
Lemma blank_filename_is_accepted_witness :
  exists g, __init__ "  " "py" "A test" "some code" "public" = Returned g /\
            _name g = ".py".
Proof.
  apply (blank_filename_is_accepted "  " "py" "A test" "some code" "public");
    [discriminate|reflexivity..].
Defined.

(** X5.  The test for reserved names reads the filename as given, before
    its whitespace is dropped: a name that is refused is accepted with
    whitespace in front of it, and stored without that whitespace. *)
Theorem whitespace_hides_reserved_name
    (lead w ext desc snippet visibility : string) :
  is_gap lead -> is_word w -> gistfileN w = true ->
  ext_ok ext = true -> visibility_ok visibility = true ->
  snippet_ok snippet = true ->
  __init__ w ext desc snippet visibility
  = Raised (GistError "Gist files cannot contain gistfile\d+") /\
  exists g, __init__ (lead ++ w) ext desc snippet visibility = Returned g /\
            _name g = w ++ dotted ext.
Proof.
  intros [Hne Hlead] Hw Hr He Hv Hs. split.
  - rewrite init_spec.
    unfold ext_ok, visibility_ok, snippet_ok in *.
    rewrite He, Hv, (GistTheorems.tag_is_lower _ Hv), Hr; cbn [negb].
    destruct w; [discriminate Hr|reflexivity].
  - eexists; split.
    + apply returns_iff. repeat split; try assumption.
      unfold filename_ok. destruct lead as [|c s]; [congruence|].
      cbn [blank_run all_chars] in Hlead. apply andb_prop in Hlead as [Hc _].
      cbn [append]. now rewrite (blank_not_reserved c _ Hc).
    + cbn [_name]. f_equal.
      replace (lead ++ w) with (lead ++ w ++ spaced [] ++ EmptyString)
        by (cbn [spaced append]; now rewrite append_empty_r).
      rewrite (split_words lead w EmptyString []); auto.
Qed.

(** X5, at the name [gistfile1] behind one space. *)
Lemma whitespace_hides_reserved_name_witness :
  __init__ "gistfile1" "py" "A test" "some code" "public"
  = Raised (GistError "Gist files cannot contain gistfile\d+") /\
  exists g, __init__ " gistfile1" "py" "A test" "some code" "public"
            = Returned g /\
            _name g = "gistfile1.py".
Proof.
  apply (whitespace_hides_reserved_name " " "gistfile1" "py" "A test"
           "some code" "public");
    try reflexivity; split; (discriminate || reflexivity).
Defined.

End GistStored.

(** ** Credentials and the request *)

Module RequestTheorems.
Import GitHubAuth.

(** [readline] returns a line that holds no line feed, then a line feed
    unless the text ended first. *)
Lemma readline_shape (s : string) :
  exists pre,
    line_feed_free pre = true /\
    (fst (readline s) = pre ++ chr newline \/
     (fst (readline s) = pre /\ snd (readline s) = EmptyString)).
Proof.
  induction s as [|c s (pre & Hpre & H)].
  - exists EmptyString. split; [reflexivity|]. right. now split.
  - cbn [readline]. destruct (Ascii.eqb c newline) eqn:Hc.
    + exists EmptyString. split; [reflexivity|]. left.
      apply Ascii.eqb_eq in Hc. now rewrite Hc.
    + destruct (readline s) as [line rest]. cbn [fst snd] in *.
      exists (String c pre). split.
      * unfold line_feed_free in *. cbn [all_chars]. now rewrite Hc, Hpre.
      * destruct H as [->|[-> ->]]; [left|right]; auto.
Qed.

Lemma readline_append (s : string) :
  fst (readline s) ++ snd (readline s) = s.
Proof.
  induction s as [|c s IH]; [reflexivity|].
  cbn [readline]. destruct (Ascii.eqb c newline); [reflexivity|].
  destruct (readline s) as [line rest]. cbn [fst snd append] in *.
  now rewrite IH.
Qed.

(** Reading in text mode leaves no carriage return. *)
Lemma universal_newlines_no_cr (s : string) :
  carriage_return_free (universal_newlines s) = true.
Proof.
  assert (H : forall n s, String.length s <= n ->
                          carriage_return_free (universal_newlines s) = true).
  { clear s. unfold carriage_return_free.
    induction n as [|n IH]; intros [|c s] Hn; try reflexivity;
      cbn [String.length] in Hn; [lia|].
    cbn [universal_newlines].
    destruct (Ascii.eqb c carriage_return) eqn:Hc.
    - destruct s as [|c' s]; [reflexivity|].
      cbn [String.length] in Hn.
      destruct (Ascii.eqb c' newline); cbn [all_chars];
        rewrite IH by (cbn [String.length]; lia); reflexivity.
    - cbn [all_chars]. rewrite Hc. cbn [negb andb]. apply IH. lia. }
  now apply (H (String.length s)).
Qed.

(** What [_auth] returns, when it returns. *)
Lemma auth_returns (tokenfile : option string) (u k : string) :
  _auth tokenfile = Returned (u, k) ->
  exists file, tokenfile = Some file /\
               u = rstrip (fst (readline (universal_newlines file))) /\
               k = rstrip (snd (readline (universal_newlines file))) /\
               k <> EmptyString.
Proof.
  unfold _auth. destruct tokenfile as [file|]; [|discriminate].
  destruct (readline (universal_newlines file)) as [line rest] eqn:Hr.
  destruct (is_empty (rstrip rest)) eqn:E; [discriminate|].
  intros [= <- <-]. exists file. rewrite Hr. cbn [fst snd].
  repeat split. now apply is_empty_false.
Qed.

(** X6.  Credentials are returned only from a token file, and then the
    token is not empty, neither the user nor the token ends with
    whitespace, the user holds no line feed, and neither holds a carriage
    return. *)
Theorem credentials_are_trimmed (tokenfile : option string) (u k : string) :
  _auth tokenfile = Returned (u, k) ->
  tokenfile <> None /\
  k <> EmptyString /\
  (forall c, last_char k = Some c -> isspace c = false) /\
  (forall c, last_char u = Some c -> isspace c = false) /\
  line_feed_free u = true /\
  carriage_return_free u = true /\
  carriage_return_free k = true.
Proof.
  intros H. apply auth_returns in H as (file & -> & -> & -> & Hk).
  split; [discriminate|]. split; [assumption|].
  assert (Hcr : carriage_return_free
                  (fst (readline (universal_newlines file))) = true /\
                carriage_return_free
                  (snd (readline (universal_newlines file))) = true).
  { pose proof (universal_newlines_no_cr file) as H.
    rewrite <- (readline_append (universal_newlines file)) in H.
    unfold carriage_return_free in *. rewrite all_chars_append in H.
    now apply andb_prop in H. }
  destruct Hcr as [Hu Hr].
  split; [|split; [|split; [|split]]].
  - intros c. apply rstrip_by_last.
  - intros c. apply rstrip_by_last.
  - destruct (readline_shape (universal_newlines file))
      as (pre & Hpre & [->|[-> _]]).
    + unfold rstrip. rewrite rstrip_by_append_stripped by reflexivity.
      now apply all_chars_rstrip_by.
    + now apply all_chars_rstrip_by.
  - now apply all_chars_rstrip_by.
  - now apply all_chars_rstrip_by.
Qed.

(** X6, at a file whose lines end with blanks, a carriage return and a
    line feed. *)
Lemma credentials_are_trimmed_witness :
  "0123abcd" <> EmptyString /\ line_feed_free "bob" = true /\
  carriage_return_free "0123abcd" = true.
Proof.
  destruct (credentials_are_trimmed
              (Some ("bob  " ++ String carriage_return
                       (String newline
                          ("0123abcd " ++ String carriage_return (chr newline)))))
              "bob" "0123abcd" eq_refl) as (_ & Hk & _ & _ & Hu & _ & Hc).
  now repeat split.
Defined.

(** X7.  With a user and a token that are both given and not empty, the
    token file is not consulted; if either is missing or empty, both are
    read from the token file and what was given is dropped. *)
Theorem explicit_credentials (tokenfile : option string)
    (user token : option string) :
  (forall u k,
      user = Some u -> token = Some k ->
      u <> EmptyString -> k <> EmptyString ->
      __init__ tokenfile user token = Returned (mk u k)) /\
  (user = None \/ user = Some EmptyString \/
   token = None \/ token = Some EmptyString ->
   __init__ tokenfile user token = __init__ tokenfile None None).
Proof.
  split.
  - intros u k -> -> Hu Hk.
    destruct u; [congruence|]. destruct k; [congruence|]. reflexivity.
  - intros [ -> | [ -> | [ -> | -> ] ] ]; try reflexivity;
      destruct user as [[|a u]|]; reflexivity.
Qed.

(** X7, with both given and no file, and with the user alone. *)
Lemma explicit_credentials_witness :
  __init__ None (Some "bob") (Some "0123abcd") = Returned (mk "bob" "0123abcd") /\
  __init__ (Some ("amy" ++ String newline "4567")) (Some "bob") None
  = Returned (mk "amy" "4567").
Proof.
  split.
  - apply (explicit_credentials None (Some "bob") (Some "0123abcd"));
      (reflexivity || discriminate).
  - destruct (explicit_credentials (Some ("amy" ++ String newline "4567"))
                (Some "bob") None) as [_ H].
    rewrite H; [reflexivity|]. right; right; left; reflexivity.
Defined.

(** What [build_request] returns, when it returns. *)
Lemma build_request_returns (tokenfile : option string)
    (filename filetype description visibility snippet : string)
    (req : GistRequest.t) :
  build_request tokenfile filename filetype description visibility snippet
  = Returned req ->
  exists g u k,
    Gist.__init__ filename filetype description snippet visibility
    = Returned g /\
    _auth tokenfile = Returned (u, k) /\
    req = GistRequest.__init__ (mk u k) g.
Proof.
  unfold build_request.
  destruct (Gist.__init__ _ _ _ _ _) as [g|e]; [|discriminate].
  cbn [bind __init__].
  destruct (_auth tokenfile) as [[u k]|e]; [|discriminate].
  cbn [bind fst snd]. intros [= <-]. now exists g, u, k.
Qed.

(** X8.  The data of a request that [create] builds has one file: its key
    is the composed filename and its content is the snippet as given; the
    description is the tidied one, and [public] is true. *)
Theorem request_data (tokenfile : option string)
    (filename filetype description visibility snippet : string)
    (req : GistRequest.t) :
  build_request tokenfile filename filetype description visibility snippet
  = Returned req ->
  GistRequest.data req
  = JObject
      [("description", JString (tidy_desc description));
       ("public", JBool true);
       ("files",
        JObject [(join "_" (split filename) ++ dotted filetype,
                  JObject [("content", JString snippet)])])].
Proof.
  intros H. apply build_request_returns in H as (g & u & k & Hg & _ & ->).
  apply GistStored.returns_iff in Hg as (_ & _ & _ & _ & ->).
  reflexivity.
Qed.

(** X8, at a request for a private Gist. *)
Lemma request_data_witness :
  exists req,
    GistRequest.data req
    = JObject
        [("description", JString "Blur points");
         ("public", JBool true);
         ("files",
          JObject [("blur_points.h",
                    JObject [("content", JString "@P = 0;")])])].
Proof.
  eexists.
  exact (request_data (Some ("bob" ++ String newline "0123abcd"))
           "blur points" "h" "blur points." "private" "@P = 0;" _ eq_refl).
Defined.

(** X9.  A request that [create] builds goes to the address of the API
    with three headers: the user and the token of the token file and the
    content type; no value of a header ends with whitespace. *)
Theorem request_headers (tokenfile : option string)
    (filename filetype description visibility snippet : string)
    (req : GistRequest.t) :
  build_request tokenfile filename filetype description visibility snippet
  = Returned req ->
  GistRequest.url req = "https://api.github.com/gists" /\
  (exists u k,
      _auth tokenfile = Returned (u, k) /\
      GistRequest.headers req
      = [("X-Github-Username", u);
         ("Content-type", "application/json");
         ("Authorization", "token " ++ k)]) /\
  (forall name value c,
      In (name, value) (GistRequest.headers req) ->
      last_char value = Some c -> isspace c = false).
Proof.
  intros H. apply build_request_returns in H as (g & u & k & _ & Ha & ->).
  split; [reflexivity|]. split; [now exists u, k|].
  apply auth_returns in Ha as (file & _ & -> & -> & Hk).
  intros name value c [H|[H|[H|[]]]]; injection H as _ <-.
  - apply rstrip_by_last.
  - cbn. now intros [= <-].
  - intros Hc. pose proof (last_char_append "token " _ Hk) as E.
    cbn [append] in E. cbn [append] in Hc. rewrite E in Hc.
    now apply rstrip_by_last in Hc.
Qed.

(** X9, at a token file of two lines. *)
Lemma request_headers_witness :
  exists req,
    GistRequest.headers req
    = [("X-Github-Username", "bob");
       ("Content-type", "application/json");
       ("Authorization", "token 0123abcd")].
Proof.
  eexists.
  destruct (request_headers (Some ("bob" ++ String newline "0123abcd "))
              "blur points" "h" "blur points." "public" "@P = 0;" _ eq_refl)
    as (_ & (u & k & Ha & Hh) & _).
  injection Ha as <- <-. exact Hh.
Defined.

End RequestTheorems.

(** ** The guesses *)

Module GuessTheorems.

Lemma prefix_append (t s : string) : String.prefix t (t ++ s) = true.
Proof.
  pose proof (skip_prefix t (t ++ s)) as H. rewrite skip_append in H.
  now destruct (String.prefix t (t ++ s)).
Qed.

Lemma prefix_true (t s : string) :
  String.prefix t s = true -> exists rest, s = t ++ rest.
Proof.
  intros H. pose proof (skip_prefix t s) as Hs. rewrite H in Hs.
  apply skip_some in Hs. eauto.
Qed.

(** [t in s] holds exactly when [t] occurs in [s]. *)
Lemma substring_iff (t s : string) : substring t s = true <-> occurs t s.
Proof.
  unfold substring, occurs. split.
  - induction s as [|c s IH]; cbn [find].
    + destruct (String.prefix t EmptyString) eqn:Hp; [|discriminate].
      intros _. apply prefix_true in Hp as [rest Hp].
      now exists EmptyString, rest.
    + destruct (String.prefix t (String c s)) eqn:Hp.
      * intros _. apply prefix_true in Hp as [rest Hp].
        now exists EmptyString, rest.
      * destruct (find t s); [|discriminate].
        intros _. destruct (IH eq_refl) as (a & b & ->).
        now exists (String c a), b.
  - intros (a & b & ->). induction a as [|c a IH].
    + cbn [append]. pose proof (prefix_append t b) as Hp.
      destruct (t ++ b); cbn [find]; now rewrite Hp.
    + cbn [append find].
      destruct (String.prefix t _); [reflexivity|].
      now destruct (find t (a ++ t ++ b)).
Qed.

Lemma filetype_of_editorlang (n : node) (text lang : string) :
  lang <> EmptyString ->
  guess_filetype (mkParm n text (Some lang))
  = if String.eqb (lower lang) "python" then Returned ".py"
    else if String.eqb (lower lang) "vex" then Returned ".h"
    else if String.eqb (lower lang) "opencl" then Returned ".cl"
    else Raised (OtherException "KeyError" (repr (lower lang))).
Proof.
  intros H. destruct lang as [|c l]; [congruence|].
  unfold guess_filetype; cbn [parm_editorlang].
  unfold getitem, exts; cbn [lookup].
  rewrite (String.eqb_sym "python"), (String.eqb_sym "vex"),
    (String.eqb_sym "opencl").
  repeat (destruct (String.eqb _ _); [reflexivity|]). reflexivity.
Qed.

(** X10.  With an editor language on the parameter, the guess of the file
    type reads nothing else: it is the extension of python, vex or opencl,
    in any case of letters, and for any other language a [KeyError] whose
    text is the [repr] of the language in lower case, whatever the type of
    the node. *)
Theorem filetype_from_editorlang (n : node) (text lang : string) :
  lang <> EmptyString ->
  guess_filetype (mkParm n text (Some lang))
  = if String.eqb (lower lang) "python" then Returned ".py"
    else if String.eqb (lower lang) "vex" then Returned ".h"
    else if String.eqb (lower lang) "opencl" then Returned ".cl"
    else Raised (OtherException "KeyError" (repr (lower lang))).
Proof.
  intros H. now apply filetype_of_editorlang.
Qed.

(** X10, at a language in capitals and at two that have no extension, one
    of them with an apostrophe. *)
Lemma filetype_from_editorlang_witness :
  guess_filetype (mkParm (mkNode "wrangle1" "attribwrangle") "" (Some "VEX"))
  = Returned ".h" /\
  guess_filetype (mkParm (mkNode "wrangle1" "attribwrangle") "" (Some "hscript"))
  = Raised (OtherException "KeyError" "'hscript'") /\
  guess_filetype (mkParm (mkNode "wrangle1" "attribwrangle") "" (Some "It's"))
  = Raised (OtherException "KeyError" (chr dquote ++ "it's" ++ chr dquote)).
Proof.
  split; [|split].
  - rewrite filetype_from_editorlang; [reflexivity|discriminate].
  - rewrite filetype_from_editorlang; [reflexivity|discriminate].
  - rewrite filetype_from_editorlang; [reflexivity|discriminate].
Defined.

(** X11.  Without an editor language (none, or an empty one) the guess
    never raises, and the type of the node decides it: [.h] if [wrangle]
    occurs in its name; else [.py] if [python] does; else [.cl] if
    [opencl] does; else nothing. *)
Theorem filetype_from_node_type (n : node) (text : string)
    (lang : option string) :
  lang = None \/ lang = Some EmptyString ->
  exists e,
    guess_filetype (mkParm n text lang) = Returned e /\
    (occurs "wrangle" (type_name n) -> e = ".h") /\
    (~ occurs "wrangle" (type_name n) -> occurs "python" (type_name n) ->
     e = ".py") /\
    (~ occurs "wrangle" (type_name n) -> ~ occurs "python" (type_name n) ->
     occurs "opencl" (type_name n) -> e = ".cl") /\
    (~ occurs "wrangle" (type_name n) -> ~ occurs "python" (type_name n) ->
     ~ occurs "opencl" (type_name n) -> e = EmptyString).
Proof.
  intros Hl.
  assert (Hg : guess_filetype (mkParm n text lang)
               = Returned (first_hit [("wrangle", ".h"); ("python", ".py");
                                      ("opencl", ".cl")] (type_name n))).
  { destruct Hl as [->| ->]; reflexivity. }
  eexists; split; [exact Hg|]. cbn [first_hit].
  rewrite <- !substring_iff.
  destruct (substring "wrangle" (type_name n));
    destruct (substring "python" (type_name n));
    destruct (substring "opencl" (type_name n));
    repeat split; intros; congruence.
Qed.

(** X11, at a Python node and at a node of another kind. *)
Lemma filetype_from_node_type_witness :
  guess_filetype (mkParm (mkNode "python1" "python") "" None) = Returned ".py" /\
  guess_filetype (mkParm (mkNode "null1" "null") "" (Some EmptyString))
  = Returned EmptyString.
Proof.
  split.
  - destruct (filetype_from_node_type (mkNode "python1" "python") "" None)
      as (e & -> & _ & H & _); [now left|].
    f_equal. apply H.
    + intros Hw. apply substring_iff in Hw. discriminate Hw.
    + now exists EmptyString, EmptyString.
  - destruct (filetype_from_node_type (mkNode "null1" "null") ""
                (Some EmptyString)) as (e & -> & _ & _ & _ & H); [now right|].
    f_equal.
    apply H; intros Hw; apply substring_iff in Hw; discriminate Hw.
Defined.

(** X12.  A guess of the file type is empty or an extension of the
    allow-list that the setter of the Gist accepts: the Gist then holds
    that extension as it was guessed, and its other attributes are
    untouched. *)
Theorem guessed_filetype_is_valid (p : parm) (e : string) :
  guess_filetype p = Returned e ->
  e = EmptyString \/
  (In e VALID_EXTENSIONS /\
   forall self,
     Gist.set_ext self e
     = Returned (Gist.mk e (Gist._visibility self) (Gist.public self)
                         (Gist._name self) (Gist._desc self)
                         (Gist._snippet self)) /\
     forall g, Gist.set_ext self e = Returned g -> Gist._ext g = e).
Proof.
  intros H.
  assert (Hin : e = EmptyString \/ In e [".h"; ".py"; ".cl"]).
  { revert H. unfold guess_filetype.
    destruct (parm_editorlang p) as [[|c l]|].
    - cbn [bind getitem exts lookup String.eqb first_hit].
      repeat (destruct (substring _ _);
              [intros [= <-]; right; simpl; tauto|]).
      intros [= <-]. now left.
    - unfold getitem, exts; cbn [lookup].
      repeat (destruct (String.eqb _ (lower (String c l)));
              [intros [= <-]; right; simpl; tauto|]).
      discriminate.
    - cbn [bind getitem exts lookup String.eqb first_hit].
      repeat (destruct (substring _ _);
              [intros [= <-]; right; simpl; tauto|]).
      intros [= <-]. now left. }
  destruct Hin as [->|Hin]; [now left|right].
  assert (Hset : forall self,
             Gist.set_ext self e
             = Returned (Gist.mk e (Gist._visibility self) (Gist.public self)
                                 (Gist._name self) (Gist._desc self)
                                 (Gist._snippet self))).
  { simpl in Hin. intros self.
    repeat (destruct Hin as [<-|Hin]; [reflexivity|]). destruct Hin. }
  split.
  - simpl in Hin. repeat (destruct Hin as [<-|Hin]; [simpl; tauto|]).
    destruct Hin.
  - intros self. split; [apply Hset|].
    intros g Hg. rewrite Hset in Hg. now injection Hg as <-.
Qed.

(** X12, at the guess for an OpenCL node. *)
Lemma guessed_filetype_is_valid_witness :
  Gist.set_ext Gist.blank ".cl"
  = Returned (Gist.mk ".cl" EmptyString false EmptyString EmptyString
                      EmptyString) /\
  Gist._ext (Gist.mk ".cl" EmptyString false EmptyString EmptyString
                     EmptyString) = ".cl".
Proof.
  destruct (guessed_filetype_is_valid
              (mkParm (mkNode "opencl1" "opencl") "" None) ".cl" eq_refl)
    as [H|[_ H]]; [discriminate H|].
  destruct (H Gist.blank) as [Hset Hext].
  split; [exact Hset|]. apply Hext. exact Hset.
Defined.

(** The text before the first place where a character is found does not
    hold it. *)
Lemma find_chr_take (c : ascii) (s : string) (n : nat) :
  find (chr c) s = Some n ->
  all_chars (fun a => negb (Ascii.eqb a c)) (take n s) = true.
Proof.
  revert n; induction s as [|a s IH]; intros n; cbn [find].
  - destruct (String.prefix (chr c) EmptyString); [|discriminate].
    intros [= <-]. reflexivity.
  - rewrite prefix_chr. destruct (Ascii.eqb a c) eqn:Ha.
    + intros [= <-]. reflexivity.
    + destruct (find (chr c) s) as [m|]; [|discriminate].
      intros [= <-]. cbn [take all_chars]. rewrite Ha. now apply IH.
Qed.

Lemma replace_char_free (a b : ascii) (s : string) :
  Ascii.eqb b a = false ->
  all_chars (fun x => negb (Ascii.eqb x a)) (replace_char a b s) = true.
Proof.
  intros Hb; induction s as [|c s IH]; [reflexivity|].
  unfold replace_char in *. cbn [map_chars all_chars]. rewrite IH.
  destruct (Ascii.eqb c a) eqn:Hc; [now rewrite Hb|now rewrite Hc].
Qed.

(** A snippet opens with one of the tokens or with none. *)
Lemma opening_cases (snippet : string) :
  (forall tok, In tok openings -> startswith tok snippet = false) \/
  (exists tok rest, In tok openings /\ snippet = tok ++ rest).
Proof.
  assert (H : forall l,
             (forall tok, In tok l -> startswith tok snippet = false) \/
             (exists tok rest, In tok l /\ snippet = tok ++ rest)).
  { induction l as [|t l [IH|(tok & rest & Hin & Hs)]].
    - left. intros tok [].
    - destruct (startswith t snippet) eqn:Ht.
      + right. apply prefix_true in Ht as [rest Ht].
        exists t, rest. split; [now left|assumption].
      + left. intros tok [<-|Hin]; auto.
    - right. exists tok, rest. split; [now right|assumption]. }
  apply H.
Qed.

Lemma strip_line_feed_free (s : string) :
  line_feed_free s = true -> line_feed_free (lstrip (rstrip s)) = true.
Proof.
  intros H. now apply all_chars_lstrip_by, all_chars_rstrip_by.
Qed.

(** X13.  A description that is guessed from a snippet is one line: it
    holds no line feed, and it neither begins nor ends with whitespace. *)
Theorem guessed_description_is_one_line (snippet d : string) :
  auto_populate_desc snippet = Returned d ->
  line_feed_free d = true /\ clean_ends isspace d.
Proof.
  destruct (opening_cases snippet) as [Hnone|(tok & rest & Hin & ->)].
  - rewrite desc_none by assumption. intros [= <-].
    split; [reflexivity|]. split; discriminate.
  - unfold openings, comment_tokens, singleline, multiline in Hin.
    cbn [map app unescape triple] in Hin.
    destruct Hin as [<-|[<-|[<-|[<-|[<-|[]]]]]].
    + rewrite desc_single by (simpl; tauto). intros [= <-].
      split; [|apply strip_clean_ends]. apply strip_line_feed_free.
      destruct (find (chr newline) rest) eqn:E; [|reflexivity].
      now apply find_chr_take.
    + rewrite desc_single by (simpl; tauto). intros [= <-].
      split; [|apply strip_clean_ends]. apply strip_line_feed_free.
      destruct (find (chr newline) rest) eqn:E; [|reflexivity].
      now apply find_chr_take.
    + rewrite desc_block. intros [= <-].
      split; [reflexivity|]. split; discriminate.
    + rewrite (desc_multi (triple "'"%char)) by (simpl; tauto).
      destruct (find _ rest); [|discriminate]. intros [= <-].
      split; [|apply strip_clean_ends]. apply strip_line_feed_free.
      now apply replace_char_free.
    + rewrite (desc_multi (triple dquote)) by (simpl; tauto).
      destruct (find _ rest); [|discriminate]. intros [= <-].
      split; [|apply strip_clean_ends]. apply strip_line_feed_free.
      now apply replace_char_free.
Qed.

(** X13, at a comment of two lines between triple quotes. *)
Lemma guessed_description_is_one_line_witness :
  line_feed_free "multi line" = true /\ clean_ends isspace "multi line".
Proof.
  exact (guessed_description_is_one_line
           (triple dquote ++ " multi" ++ String newline "line " ++ triple dquote
            ++ String newline "code")
           "multi line" eq_refl).
Defined.

End GuessTheorems.

(** ** [create] *)

Module CreateTheorems.
Import Create.

Ltac run_create :=
  unfold create, readMultiInput, post_try, post, report, act_pure, act_call,
    act_lift, act_ret, act_raise, create_try;
  cbn [act_bind fst snd Nat.eqb app map].

(** X14.  When the dialog is closed with its first button, [create] has
    asked the host for the dialog and does nothing more: no token file is
    read, nothing is sent, nothing else is shown. *)
Theorem cancel_does_nothing (h : host) (tokenfile : option string)
    (network : result response) (p : parm) (initial : list string)
    (f : fields) :
  hou_importable h = true ->
  initial_contents p = Returned initial ->
  create h tokenfile (Returned (0, f)) network p
  = ([ReadMultiInput initial], Returned tt).
Proof.
  intros Hh Hi. run_create. rewrite Hi, Hh. reflexivity.
Qed.

(** X14, at a wrangle with a comment on its first line. *)
Lemma cancel_does_nothing_witness :
  create (mkHost true true) None
    (Returned (0, mkFields "blur" "h" "Blur points" "public"))
    (Raised (OtherException "ConnectionError" "unreachable"))
    (mkParm (mkNode "blur" "attribwrangle")
            ("// Blur points" ++ String newline "@P = 0;") None)
  = ([ReadMultiInput ["blur"; ".h"; "Blur points"; "public"]], Returned tt).
Proof.
  apply cancel_does_nothing; reflexivity.
Defined.

Ltac run_handler :=
  unfold GistErrorHandler.__init__, GistErrorHandler.set_err,
    GistErrorHandler._get_context, GistErrorHandler.handle,
    io_bind, io_call, io_ret, io_raise;
  cbn.

(** X15.  In one run [create] sends at most one request, and only after a
    button other than the first: a request to the address of the API, with
    a timeout of sixty seconds, whose data and headers are those of the
    request built from the fields of the dialog, the text of the parameter
    and the token file. *)
Theorem one_post_at_most (h : host) (tokenfile : option string)
    (dialog : result (nat * fields)) (network : result response) (p : parm) :
  posts (fst (create h tokenfile dialog network p)) <= 1 /\
  forall url data headers timeout,
    In (Post url data headers timeout)
       (fst (create h tokenfile dialog network p)) ->
    exists b f req,
      dialog = Returned (S b, f) /\
      build_request tokenfile (f_filename f) (f_filetype f)
        (f_description f) (f_visibility f) (parm_text p)
      = Returned req /\
      url = GIST_API /\ timeout = 60 /\
      data = GistRequest.data req /\ headers = GistRequest.headers req.
Proof.
  run_create.
  destruct (initial_contents p) as [initial|e0]; cbn;
    [|split; [lia|intros ? ? ? ? []]].
  destruct h as [[] ui]; cbn;
    [|split; [lia|intros ? ? ? ? []]].
  destruct dialog as [[[|b] f]|e1]; cbn;
    try (split; [lia|intros ? ? ? ? [H|[]]; discriminate H]).
  destruct (build_request _ _ _ _ _ _) as [req|e2] eqn:Hb.
  - assert (Hurl : GistRequest.url req = GIST_API).
    { apply RequestTheorems.build_request_returns in Hb
        as (g & u & k & _ & _ & ->). reflexivity. }
    destruct network as [[[] [body|e3]]|e3]; cbn;
      try destruct (getitem body "id"); try destruct ui; run_handler;
      (split; [lia|]);
      intros url data headers timeout Hin;
      repeat (destruct Hin as [Hin|Hin]; try discriminate Hin);
      try contradiction;
      injection Hin as <- <- <- <-;
      exists b, f, req; repeat split; auto.
  - destruct e2; cbn; try destruct ui; run_handler;
      (split; [lia|]);
      intros url data headers timeout Hin;
      repeat (destruct Hin as [Hin|Hin]; try discriminate Hin);
      contradiction.
Qed.

(** X15, at a run that sends its request. *)
Lemma one_post_at_most_witness :
  posts (fst (create (mkHost true true)
                (Some ("bob" ++ String newline "0123abcd"))
                (Returned (1, mkFields "blur" "h" "Blur points" "public"))
                (Returned (mkResponse true (Returned [("id", "aa5a315d")])))
                (mkParm (mkNode "blur" "attribwrangle") "@P = 0;" None)))
  <= 1.
Proof. apply one_post_at_most. Defined.

(** X16.  When the fields of the dialog or the token file are refused with
    a [GistError], nothing is sent.  In a session with a user interface
    the error is shown in one dialog and [create] returns; in a session
    without one the error leaves [create]. *)
Theorem refused_fields_send_nothing (h : host) (tokenfile : option string)
    (network : result response) (p : parm) (initial : list string)
    (b : nat) (f : fields) (message : string) :
  hou_importable h = true ->
  initial_contents p = Returned initial ->
  build_request tokenfile (f_filename f) (f_filetype f) (f_description f)
    (f_visibility f) (parm_text p)
  = Raised (GistError message) ->
  let run := create h tokenfile (Returned (S b, f)) network p in
  posts (fst run) = 0 /\
  (ui_available h = true ->
   run = ([ReadMultiInput initial; Host ImportHou; Host IsUIAvailable;
           Host (DisplayMessage message "Gist Submission Error" Error)],
          Returned tt)) /\
  (ui_available h = false ->
   run = ([ReadMultiInput initial; Host ImportHou; Host IsUIAvailable],
          Raised (GistError message))).
Proof.
  intros Hh Hi Hb. cbv zeta. run_create. rewrite Hi, Hh; cbn. rewrite Hb.
  cbn [is_GistError]. run_handler. rewrite Hh.
  destruct (ui_available h); cbn; repeat split; discriminate.
Qed.

(** X16, at an extension that is not in the allow-list. *)
Lemma refused_fields_send_nothing_witness :
  create (mkHost true true) (Some ("bob" ++ String newline "0123abcd"))
    (Returned (1, mkFields "blur" "txt" "Blur points" "public"))
    (Returned (mkResponse true (Returned [("id", "aa5a315d")])))
    (mkParm (mkNode "blur" "attribwrangle") "@P = 0;" None)
  = ([ReadMultiInput ["blur"; ".h"; EmptyString; "public"];
      Host ImportHou; Host IsUIAvailable;
      Host (DisplayMessage
              "Extension must be one of the following: .h .vfl .c .cl .py"
              "Gist Submission Error" Error)],
     Returned tt).
Proof.
  apply (refused_fields_send_nothing (mkHost true true)
           (Some ("bob" ++ String newline "0123abcd"))
           (Returned (mkResponse true (Returned [("id", "aa5a315d")])))
           (mkParm (mkNode "blur" "attribwrangle") "@P = 0;" None)
           ["blur"; ".h"; EmptyString; "public"] 0
           (mkFields "blur" "txt" "Blur points" "public"));
    reflexivity.
Defined.

(** X17.  When the request is built and the response is a success whose
    body has an [id], [create] sends the request once and shows one dialog
    with the link [https://gist.github.com/<user>/<id>], the user being the
    one of the token file. *)
Theorem success_shows_link (h : host) (tokenfile : option string)
    (p : parm) (initial : list string) (b : nat) (f : fields)
    (req : GistRequest.t) (body : list (string * string)) (id : string) :
  hou_importable h = true ->
  initial_contents p = Returned initial ->
  build_request tokenfile (f_filename f) (f_filetype f) (f_description f)
    (f_visibility f) (parm_text p)
  = Returned req ->
  lookup body "id" = Some id ->
  create h tokenfile (Returned (S b, f))
    (Returned (mkResponse true (Returned body))) p
  = ([ReadMultiInput initial;
      Post "https://api.github.com/gists" (GistRequest.data req)
           (GistRequest.headers req) 60;
      DisplayDetails "Created Gist. See link below." "Success!" "Show Link"
        ("https://gist.github.com/"
         ++ GitHubAuth.user (GistRequest.auth req) ++ "/" ++ id)],
     Returned tt).
Proof.
  intros Hh Hi Hb Hid. run_create. rewrite Hi, Hh; cbn. rewrite Hb; cbn.
  unfold getitem. rewrite Hid; cbn.
  apply RequestTheorems.build_request_returns in Hb
    as (g & u & k & _ & _ & ->).
  reflexivity.
Qed.

(** X17, at a wrangle whose snippet is published by [bob]. *)
Lemma success_shows_link_witness :
  shown (fst (create (mkHost true true)
                (Some ("bob" ++ String newline "0123abcd"))
                (Returned (1, mkFields "blur" "h" "Blur points" "public"))
                (Returned (mkResponse true
                             (Returned [("url", "u"); ("id", "aa5a315d")])))
                (mkParm (mkNode "blur" "attribwrangle") "@P = 0;" None)))
  = ["Created Gist. See link below."].
Proof.
  rewrite (success_shows_link (mkHost true true)
             (Some ("bob" ++ String newline "0123abcd"))
             (mkParm (mkNode "blur" "attribwrangle") "@P = 0;" None)
             ["blur"; ".h"; EmptyString; "public"] 0
             (mkFields "blur" "h" "Blur points" "public")
             _ [("url", "u"); ("id", "aa5a315d")] "aa5a315d"
             eq_refl eq_refl eq_refl eq_refl).
  reflexivity.
Defined.

(** X18.  When sending fails, whatever the exception, the error that is
    reported is the fixed message of [create].  In a session without a
    user interface it leaves [create] as a [GistError].  In a session with
    one it is shown in a dialog, and [create] then reads the response that
    was never bound: it ends with an [UnboundLocalError] and shows nothing
    more. *)
Theorem failed_post (h : host) (tokenfile : option string)
    (p : parm) (initial : list string) (b : nat) (f : fields)
    (req : GistRequest.t) (e : exn) :
  hou_importable h = true ->
  initial_contents p = Returned initial ->
  build_request tokenfile (f_filename f) (f_filetype f) (f_description f)
    (f_visibility f) (parm_text p)
  = Returned req ->
  let run := create h tokenfile (Returned (S b, f)) (Raised e) p in
  posts (fst run) = 1 /\
  (ui_available h = false -> snd run = Raised (GistError push_message)) /\
  (ui_available h = true ->
   shown (fst run) = [push_message] /\
   snd run
   = Raised (OtherException "UnboundLocalError"
               "local variable 'response' referenced before assignment")).
Proof.
  intros Hh Hi Hb. cbv zeta. run_create. rewrite Hi, Hh; cbn. rewrite Hb; cbn.
  run_handler. rewrite Hh.
  destruct (ui_available h); cbn; repeat split; discriminate.
Qed.

(** X18, at a connection that cannot be made, in an interactive session. *)
Lemma failed_post_witness :
  snd (create (mkHost true true)
         (Some ("bob" ++ String newline "0123abcd"))
         (Returned (1, mkFields "blur" "h" "Blur points" "public"))
         (Raised (OtherException "ConnectionError" "unreachable"))
         (mkParm (mkNode "blur" "attribwrangle") "@P = 0;" None))
  = Raised (OtherException "UnboundLocalError"
              "local variable 'response' referenced before assignment").
Proof.
  destruct (failed_post (mkHost true true)
              (Some ("bob" ++ String newline "0123abcd"))
              (mkParm (mkNode "blur" "attribwrangle") "@P = 0;" None)
              ["blur"; ".h"; EmptyString; "public"] 0
              (mkFields "blur" "h" "Blur points" "public") _
              (OtherException "ConnectionError" "unreachable")
              eq_refl eq_refl eq_refl) as (_ & _ & H).
  now apply H.
Defined.



(** X20.  [create] raises before the dialog of options: nothing is shown,
    sent or printed, and the error handler is not called, when the
    parameter has an editor language other than python, vex and opencl
    ([KeyError], its text the [repr] of the language in lower case), when
    the text of the parameter opens with three quotes that never close
    ([AttributeError]), and when [hou] could not be imported
    ([NameError]). *)
Theorem create_raises_before_dialog (h : host) (tokenfile : option string)
    (dialog : result (nat * fields)) (network : result response) (p : parm) :
  (forall lang,
      parm_editorlang p = Some lang -> lang <> EmptyString ->
      ~ In (lower lang) ["python"; "vex"; "opencl"] ->
      create h tokenfile dialog network p
      = ([], Raised (OtherException "KeyError" (repr (lower lang))))) /\
  (forall tok rest filetype,
      guess_filetype p = Returned filetype ->
      In tok [triple "'"%char; triple dquote] ->
      parm_text p = tok ++ rest -> find tok rest = None ->
      create h tokenfile dialog network p
      = ([], Raised (AttributeError
                       "'NoneType' object has no attribute 'group'"))) /\
  (forall initial,
      initial_contents p = Returned initial -> hou_importable h = false ->
      create h tokenfile dialog network p
      = ([], Raised (OtherException "NameError" "name 'hou' is not defined"))).
Proof.
  split; [|split].
  - intros lang Hl Hne Hnot.
    assert (Hg : guess_filetype p
                 = Raised (OtherException "KeyError" (repr (lower lang)))).
    { destruct p as [n text l]; cbn [parm_editorlang] in Hl; subst l.
      rewrite GuessTheorems.filetype_of_editorlang by assumption.
      destruct (String.eqb_spec (lower lang) "python") as [E|_];
        [exfalso; apply Hnot; rewrite E; simpl; tauto|].
      destruct (String.eqb_spec (lower lang) "vex") as [E|_];
        [exfalso; apply Hnot; rewrite E; simpl; tauto|].
      destruct (String.eqb_spec (lower lang) "opencl") as [E|_];
        [exfalso; apply Hnot; rewrite E; simpl; tauto|].
      reflexivity. }
    run_create. unfold initial_contents. now rewrite Hg.
  - intros tok rest filetype Hg Htok Ht Hf.
    run_create. unfold initial_contents. rewrite Hg, Ht; cbn [bind].
    rewrite desc_multi by assumption. now rewrite Hf.
  - intros initial Hi Hh. run_create. now rewrite Hi, Hh.
Qed.

(** X20, at an editor language without an extension, at an unclosed
    comment and outside the host. *)
Lemma create_raises_before_dialog_witness :
  create (mkHost true true) None
    (Returned (1, mkFields "blur" "h" "Blur points" "public"))
    (Raised (OtherException "ConnectionError" "unreachable"))
    (mkParm (mkNode "blur" "attribwrangle") "@P = 0;" (Some "HScript"))
  = ([], Raised (OtherException "KeyError" "'hscript'")) /\
  create (mkHost true true) None
    (Returned (1, mkFields "blur" "h" "Blur points" "public"))
    (Raised (OtherException "ConnectionError" "unreachable"))
    (mkParm (mkNode "blur" "python") (triple dquote ++ "Blur points") None)
  = ([], Raised (AttributeError "'NoneType' object has no attribute 'group'")) /\
  create (mkHost false false) None
    (Returned (1, mkFields "blur" "h" "Blur points" "public"))
    (Raised (OtherException "ConnectionError" "unreachable"))
    (mkParm (mkNode "blur" "attribwrangle") "@P = 0;" None)
  = ([], Raised (OtherException "NameError" "name 'hou' is not defined")).
Proof.
  split; [|split].
  - destruct (create_raises_before_dialog (mkHost true true) None
                (Returned (1, mkFields "blur" "h" "Blur points" "public"))
                (Raised (OtherException "ConnectionError" "unreachable"))
                (mkParm (mkNode "blur" "attribwrangle") "@P = 0;"
                        (Some "HScript"))) as (H & _ & _).
    apply (H "HScript").
    + reflexivity.
    + discriminate.
    + simpl. intros [E|[E|[E|[]]]]; discriminate E.
  - destruct (create_raises_before_dialog (mkHost true true) None
                (Returned (1, mkFields "blur" "h" "Blur points" "public"))
                (Raised (OtherException "ConnectionError" "unreachable"))
                (mkParm (mkNode "blur" "python")
                        (triple dquote ++ "Blur points") None))
      as (_ & H & _).
    apply (H (triple dquote) "Blur points" ".py").
    + reflexivity.
    + simpl; tauto.
    + reflexivity.
    + reflexivity.
  - destruct (create_raises_before_dialog (mkHost false false) None
                (Returned (1, mkFields "blur" "h" "Blur points" "public"))
                (Raised (OtherException "ConnectionError" "unreachable"))
                (mkParm (mkNode "blur" "attribwrangle") "@P = 0;" None))
      as (_ & _ & H).
    apply (H ["blur"; ".h"; EmptyString; "public"]); reflexivity.
Defined.

End CreateTheorems.
